(** * moim: the tooling configuration and the Zod guide's example code

    The repository is a Turborepo monorepo (NestJS backend, React Native
    mobile client).  The files modelled here are

    - [apps/mobile/babel.config.js], the Metro, ESLint and Prettier
      configuration modules;
    - the TypeScript examples of [ZOD_GUIDE.md]: the validation pipe, the
      DTO and user schemas, the controller, [validateEnv], [userApi], the
      signup screen and the Jest snippet;
    - the list of files itself.

    JavaScript values, exceptions and the [process.env] map are modelled
    explicitly; third-party packages (Zod, NestJS, Metro, ESLint plugins,
    axios, react-hook-form) appear as interfaces whose members are taken as
    parameters or modelled from their documented behaviour. *)

From Stdlib Require Import NArith ZArith QArith Ascii String List Bool Lia.
From stdpp Require Import base option gmap strings list.
Import ListNotations.

Close Scope Q_scope.
#[local] Set Warnings "-register-all".
Local Open Scope string_scope.
Local Open Scope list_scope.

(* ================================================================== *)
(** ** JavaScript values *)
(* ================================================================== *)

Module JS.

(** A JavaScript string is a sequence of UTF-16 code units; [length] is the
    JavaScript [.length].  Code units are not bounded here (every real
    string is covered). *)
Abbreviation code_unit := N (only parsing).
Abbreviation jsstring := (list N) (only parsing).

(** A string literal of the source.  ASCII literals map to their code
    units; other literals (the Korean messages) are carried byte-wise and
    only ever used as opaque texts. *)
Definition js (s : string) : jsstring := map N_of_ascii (list_ascii_of_string s).

(** A JavaScript number: NaN, the two infinities, or a finite value, which
    is a rational. *)
Inductive number : Type :=
| NaN
| Infinity (negative : bool)
| Finite (q : Q).

(** Values.  An object carries the name of its constructor ("Object" for an
    object literal, "Error" for [new Error(..)]) and its properties in
    insertion order. *)
Inductive value : Type :=
| VUndefined
| VNull
| VBool (b : bool)
| VNumber (n : number)
| VString (s : jsstring)
| VArray (items : list value)
| VObject (class : string) (props : list (string * value)).

Definition lit (s : string) : value := VString (js s).
Definition num (z : Z) : value := VNumber (Finite (inject_Z z)).
Definition obj (props : list (string * value)) : value := VObject "Object" props.

Fixpoint lookup_prop (k : string) (props : list (string * value)) : option value :=
  match props with
  | [] => None
  | (k', v) :: rest => if String.eqb k' k then Some v else lookup_prop k rest
  end.

Definition has_prop (k : string) (props : list (string * value)) : bool :=
  match lookup_prop k props with Some _ => true | None => false end.

Definition class_of (v : value) : option string :=
  match v with
  | VObject c _ => Some c
  | _ => None
  end.

(** ToBoolean. *)
Definition to_boolean (v : value) : bool :=
  match v with
  | VUndefined | VNull => false
  | VBool b => b
  | VNumber NaN => false
  | VNumber (Infinity _) => true
  | VNumber (Finite q) => negb (Qeq_bool q 0)
  | VString s => match s with [] => false | _ => true end
  | VArray _ | VObject _ _ => true
  end.

(** [a || b] where [b] has no effect of its own. *)
Definition or_else (a b : value) : value :=
  if to_boolean a then a else b.

(** *** Completions: a call returns or throws a value *)

Inductive completion (A : Type) : Type :=
| Normal (a : A)
| Throw (e : value).
Arguments Normal {A} a.
Arguments Throw {A} e.

Global Instance completion_ret : MRet completion := fun A a => Normal a.
Global Instance completion_bind : MBind completion := fun A B f m =>
  match m with
  | Normal a => f a
  | Throw e => Throw e
  end.

(** [try { body } catch (error) { handler }] *)
Definition try_catch {A} (body : completion A) (handler : value -> completion A)
  : completion A :=
  match body with
  | Normal a => Normal a
  | Throw e => handler e
  end.


(** The engine's TypeError; its message differs between engines and is
    left out. *)
Definition TypeError : value := VObject "TypeError" [].

(** [new Error(message)] *)
Definition new_Error (message : jsstring) : value :=
  VObject "Error" [("message", VString message)].

(** Property read [v.k]: a TypeError on [undefined] and [null]; a missing
    property reads as [undefined].  The built-in properties of arrays and
    primitives ([length], ..) are not modelled. *)
Definition get (v : value) (k : string) : completion value :=
  match v with
  | VUndefined | VNull => Throw TypeError
  | VObject _ props => Normal (default VUndefined (lookup_prop k props))
  | _ => Normal VUndefined
  end.

Fixpoint get_path (v : value) (ks : list string) : completion value :=
  match ks with
  | [] => Normal v
  | k :: rest => v' ← get v k; get_path v' rest
  end.

(** Reading a configuration value: a property, an array element. *)
Definition prop (k : string) (v : value) : option value :=
  match v with
  | VObject _ props => lookup_prop k props
  | _ => None
  end.

Definition item (i : nat) (v : value) : option value :=
  match v with
  | VArray items => nth_error items i
  | _ => None
  end.

(** One [console.error(...)] call: its arguments. *)
Definition console_line : Type := list value.

End JS.
Import JS.

(* ================================================================== *)
(** ** The Node.js host of a configuration module *)
(* ================================================================== *)

Module Node.

(** What a CommonJS module reads from its host: [process.env] (names to
    strings), [process.cwd()] and its own [__dirname]. *)
Record host : Type := {
  process_env : gmap string jsstring;
  cwd : jsstring;
  __dirname : jsstring;
}.

(** [process.env.NAME] *)
Definition env_get (env : gmap string jsstring) (name : string) : value :=
  match env !! name with
  | Some s => VString s
  | None => VUndefined
  end.

(** [process.env] as an object. *)
Definition env_object (env : gmap string jsstring) : value :=
  obj (map (fun kv => (fst kv, VString (snd kv))) (map_to_list env)).

(** *** [path.resolve] (POSIX) *)

Definition slash : N := 47%N.

Definition is_absolute (p : jsstring) : bool :=
  match p with
  | c :: _ => N.eqb c slash
  | [] => false
  end.

(** Split at every "/"; [cur] is the current segment, reversed. *)
Fixpoint split_path (cur : jsstring) (p : jsstring) : list jsstring :=
  match p with
  | [] => [rev cur]
  | c :: rest =>
      if N.eqb c slash then rev cur :: split_path [] rest
      else split_path (c :: cur) rest
  end.

Definition jsstring_eqb (a b : jsstring) : bool :=
  bool_decide (a = b).

(** Drop empty and "." segments, and let ".." remove the segment before it
    (at the root it removes nothing). [stack] is reversed. *)
Fixpoint normalize_segments (stack segs : list jsstring) : list jsstring :=
  match segs with
  | [] => rev stack
  | s :: rest =>
      if jsstring_eqb s [] || jsstring_eqb s (js ".") then
        normalize_segments stack rest
      else if jsstring_eqb s (js "..") then
        normalize_segments (tail stack) rest
      else normalize_segments (s :: stack) rest
  end.

Fixpoint join_path (segs : list jsstring) : jsstring :=
  match segs with
  | [] => []
  | [s] => s
  | s :: rest => s ++ slash :: join_path rest
  end.

(** The arguments are taken from the right until one is absolute; the
    working directory is the last resort. *)
Fixpoint resolve_join (from_right : list jsstring) (acc : jsstring) : jsstring :=
  match from_right with
  | [] => acc
  | p :: rest =>
      match p with
      | [] => resolve_join rest acc
      | _ =>
          let acc' := p ++ slash :: acc in
          if is_absolute p then acc' else resolve_join rest acc'
      end
  end.

Definition resolve (cwd : jsstring) (paths : list jsstring) : jsstring :=
  slash :: join_path
    (normalize_segments [] (split_path [] (resolve_join (rev paths ++ [cwd]) []))).

(** The absolute path with the given segments. *)
Definition abs_path (segs : list jsstring) : jsstring := slash :: join_path segs.

(** A directory name: not empty, no "/", neither "." nor "..". *)
Definition plain_segment (s : jsstring) : Prop :=
  s <> [] /\ ~ In slash s /\ s <> js "." /\ s <> js "..".

End Node.
Import Node.

(* ================================================================== *)
(** ** apps/mobile/babel.config.js *)
(* ================================================================== *)

Module Babel.

Definition module_exports (h : host) : value :=
  obj [
    ("presets", VArray [lit "module:@react-native/babel-preset"]);
    ("plugins", VArray [
      VArray [
        lit "module:react-native-dotenv";
        obj [
          ("envName", lit "APP_ENV");
          ("moduleName", lit "@env");
          ("path", or_else (env_get (process_env h) "ENV_FILE") (lit ".env.dev"));
          ("safe", VBool false);
          ("allowUndefined", VBool true);
          ("verbose", VBool false)
        ]
      ]
    ])
  ].

(** [plugins[0][1]]: the options of the react-native-dotenv plugin. *)
Definition dotenv_options (config : value) : option value :=
  match prop "plugins" config with
  | Some plugins =>
      match item 0 plugins with
      | Some plugin => item 1 plugin
      | None => None
      end
  | None => None
  end.

Definition dotenv_path (config : value) : option value :=
  match dotenv_options config with
  | Some options => prop "path" options
  | None => None
  end.

End Babel.

(* ================================================================== *)
(** ** The Metro configuration module *)
(* ================================================================== *)

Module Metro.

(** [@react-native/metro-config], taken as given.  [getDefaultConfig]
    looks at the host it runs on besides its argument (it reads
    [process.env.RCT_METRO_PORT] for the port of the development server);
    [mergeConfig] is a function of the two configurations. *)
Class MetroConfigPkg : Type := {
  getDefaultConfig : host -> jsstring -> value;
  mergeConfig : value -> value -> value;
}.

Definition monorepoRoot (h : host) : jsstring :=
  resolve (cwd h) [__dirname h; js "../.."].

Definition config (h : host) : value :=
  obj [
    ("watchFolders", VArray [
      VString (monorepoRoot h);
      VString (monorepoRoot h ++ js "/packages/ui");
      VString (monorepoRoot h ++ js "/packages/ts-config")
    ]);
    ("resolver", obj [
      ("nodeModulesPaths", VArray [
        VString (resolve (cwd h) [__dirname h; js "node_modules"]);
        VString (resolve (cwd h) [monorepoRoot h; js "node_modules"])
      ])
    ])
  ].

Definition module_exports `{MetroConfigPkg} (h : host) : value :=
  mergeConfig (getDefaultConfig h (__dirname h)) (config h).

Definition watchFolders (config : value) : option value :=
  prop "watchFolders" config.

End Metro.

(* ================================================================== *)
(** ** The ESLint flat configuration module *)
(* ================================================================== *)

Module Eslint.

(** The imported packages, taken as given. *)
Class EslintPkgs : Type := {
  reactHooks : value;            (* eslint-plugin-react-hooks *)
  reactNativeConfig : value;     (* @react-native/eslint-config *)
  eslintConfigPrettier : value;  (* eslint-config-prettier *)
  react : value;                 (* eslint-plugin-react *)
  defineConfig : value -> value; (* eslint/config *)
}.

(** The array handed to [defineConfig]; its elements are evaluated from
    left to right. *)
Definition config_array `{EslintPkgs} : completion value :=
  hooks ← get_path reactHooks ["configs"; "flat"; "recommended"];
  react_recommended ← get_path react ["configs"; "flat"; "recommended"];
  mret (VArray [reactNativeConfig; hooks; eslintConfigPrettier; react_recommended]).

Definition default_export `{EslintPkgs} : completion value :=
  configs ← config_array;
  mret (defineConfig configs).

End Eslint.

(* ================================================================== *)
(** ** The Prettier configuration module *)
(* ================================================================== *)

Module Prettier.

Definition config : value :=
  obj [
    ("plugins", VArray [
      lit "prettier-plugin-css-order";
      lit "prettier-plugin-organize-attributes";
      lit "@trivago/prettier-plugin-sort-imports";
      lit "prettier-plugin-style-order";
      lit "prettier-plugin-tailwindcss"
    ]);
    ("endOfLine", lit "lf");
    ("trailingComma", lit "es5");
    ("tabWidth", num 4);
    ("semi", VBool false);
    ("singleQuote", VBool true);
    ("arrowParens", lit "avoid");
    ("importOrderSortSpecifiers", VBool true)
  ].

Definition default_export : value := config.

Definition plugins (config : value) : option value := prop "plugins" config.

End Prettier.

(* ================================================================== *)
(** ** The four configuration files, seen from the host *)
(* ================================================================== *)

Module Tooling.

Import Metro Eslint.

Inductive config_file : Type :=
| babel_config_js
| metro_config_js
| eslint_config_mjs
| prettier_config_js.

Global Instance config_file_eq_dec : EqDecision config_file.
Proof. solve_decision. Defined.


(** Two hosts that differ in [process.env] at most. *)
Definition same_but_env (h1 h2 : host) : Prop :=
  cwd h1 = cwd h2 /\ __dirname h1 = __dirname h2.

End Tooling.

(* ================================================================== *)
(** ** Regular expressions *)
(* ================================================================== *)

Module RegExp.

Local Open Scope N_scope.

(** A pattern is a backtracking matcher: it consumes a prefix of the
    input and hands the rest to its continuation. *)
Definition pattern : Type := jsstring -> (jsstring -> bool) -> bool.

Definition in_range (lo hi c : N) : bool := (lo <=? c) && (c <=? hi).

(** [[a-z]], [[A-Z]], [\d] and [[0-9]] (no [i] or [u] flag). *)
Definition lower (c : N) : bool := in_range 97 122 c.
Definition upper (c : N) : bool := in_range 65 90 c.
Definition digit (c : N) : bool := in_range 48 57 c.

(** LF, CR, U+2028 and U+2029. *)
Definition line_terminator (c : N) : bool :=
  (c =? 10) || (c =? 13) || (c =? 8232) || (c =? 8233).

(** [.] without the [s] flag: any code unit but a line terminator. *)
Definition dot (c : N) : bool := negb (line_terminator c).

(** One code unit of a class. *)
Definition class (p : N -> bool) : pattern := fun s k =>
  match s with
  | c :: rest => p c && k rest
  | [] => false
  end.

(** [c*] for a class [c], greedy. *)
Fixpoint star (p : N -> bool) (s : jsstring) (k : jsstring -> bool) : bool :=
  match s with
  | c :: rest => (p c && star p rest k) || k s
  | [] => k []
  end.

Definition seq (a b : pattern) : pattern := fun s k => a s (fun rest => b rest k).

(** [(?=a)] *)
Definition lookahead (a : pattern) : pattern := fun s k =>
  a s (fun _ => true) && k s.

(** [/^a/.test(s)]: without the [m] flag [^] holds at index 0 only. *)
Definition test_at_start (a : pattern) (s : jsstring) : bool :=
  a s (fun _ => true).

(** [/[c]/.test(s)]: some code unit of the class, anywhere. *)
Definition test_class (p : N -> bool) (s : jsstring) : bool := existsb p s.

(** The input up to its first line terminator: what [.*] can run over
    from index 0. *)
Fixpoint first_line (s : jsstring) : jsstring :=
  match s with
  | [] => []
  | c :: rest => if dot c then c :: first_line rest else []
  end.

End RegExp.

(* ================================================================== *)
(** ** Zod *)
(* ================================================================== *)

(** Zod's synchronous parsing, modelled from the library's documented
    behaviour for the schema kinds the guide uses.  The guide installs the
    package without a version ([pnpm add -w zod]); what is the library's
    own and may differ between its versions is taken as given: the format
    tests of [email()], [uuid()] and [datetime()], the default messages,
    which class instances [z.object] takes for objects, and whether a
    [ZodError] has the [errors] alias. *)
Module Zod.

Class ZodLib : Type := {
  is_email : jsstring -> bool;
  is_uuid : jsstring -> bool;
  is_datetime : jsstring -> bool;
  errorMap : string -> jsstring;   (* issue code to default message *)
  (** Whether an instance of the named class is parsed as an object.
      Zod 3 detects the types date, map, set and promise for instances of
      [Date], [Map], [Set] and [Promise], which [z.object] then rejects,
      and the type object for instances of other classes. *)
  instance_is_object : string -> bool;
  (** Whether a [ZodError] has the property [errors], the alias of
      [issues] that Zod 3 defines. *)
  errors_alias : bool;
}.

Inductive string_check : Type :=
| check_email (message : option jsstring)
| check_uuid
| check_datetime
| check_min (n : nat) (message : option jsstring)
| check_max (n : nat) (message : option jsstring)
| check_regex (test : jsstring -> bool) (message : option jsstring).

Inductive number_check : Type :=
| check_int
| check_ge (bound : Q)
| check_le (bound : Q).

Inductive schema : Type :=
| ZString (checks : list string_check)
| ZNumber (checks : list number_check)
| ZBoolean
| ZEnum (options : list jsstring)
| ZObject (shape : list (string * schema))
| ZOptional (inner : schema)
| ZDefault (inner : schema) (value : value)
| ZTransform (inner : schema) (f : value -> value)
| ZPipe (first second : schema)
| ZRefine (inner : schema) (check : value -> bool)
          (message : jsstring) (path : list string).

(** *** Building schemas *)

(** Method chaining: [x |> f |> g] is [x.f().g()]. *)
Notation "x |> f" := (f x) (at level 45, left associativity, only parsing).

Definition add_string_check (c : string_check) (s : schema) : schema :=
  match s with
  | ZString checks => ZString (checks ++ [c])
  | _ => s
  end.

Definition add_number_check (c : number_check) (s : schema) : schema :=
  match s with
  | ZNumber checks => ZNumber (checks ++ [c])
  | _ => s
  end.

Definition z_string : schema := ZString [].
Definition z_number : schema := ZNumber [].
Definition z_boolean : schema := ZBoolean.
Definition z_enum (options : list string) : schema := ZEnum (map js options).
Definition z_object (shape : list (string * schema)) : schema := ZObject shape.

Definition email (message : option string) : schema -> schema :=
  add_string_check (check_email (js <$> message)).
Definition uuid : schema -> schema := add_string_check check_uuid.
Definition datetime : schema -> schema := add_string_check check_datetime.
Definition min (n : nat) (message : option string) : schema -> schema :=
  add_string_check (check_min n (js <$> message)).
Definition max (n : nat) (message : option string) : schema -> schema :=
  add_string_check (check_max n (js <$> message)).
Definition regex (test : jsstring -> bool) (message : option string)
  : schema -> schema :=
  add_string_check (check_regex test (js <$> message)).

Definition int : schema -> schema := add_number_check check_int.
Definition number_min (bound : Z) : schema -> schema :=
  add_number_check (check_ge (inject_Z bound)).
Definition number_max (bound : Z) : schema -> schema :=
  add_number_check (check_le (inject_Z bound)).

Definition optional (s : schema) : schema := ZOptional s.
Definition default (d : value) (s : schema) : schema := ZDefault s d.
Definition transform (f : value -> value) (s : schema) : schema := ZTransform s f.
Definition pipe (second first : schema) : schema := ZPipe first second.
Definition refine (check : value -> bool) (message : string) (path : list string)
    (s : schema) : schema :=
  ZRefine s check (js message) path.

(** *** The shape of an object schema *)

Definition shape_of (s : schema) : list (string * schema) :=
  match s with
  | ZObject shape => shape
  | _ => []
  end.

Definition keys (s : schema) : list string := map fst (shape_of s).

Fixpoint lookup_field (k : string) (shape : list (string * schema)) : option schema :=
  match shape with
  | [] => None
  | (k', s) :: rest => if String.eqb k' k then Some s else lookup_field k rest
  end.

(** [{ ...shape, [k]: s }]: an existing key keeps its place. *)
Fixpoint set_field (k : string) (s : schema) (shape : list (string * schema))
  : list (string * schema) :=
  match shape with
  | [] => [(k, s)]
  | (k', s') :: rest =>
      if String.eqb k' k then (k, s) :: rest else (k', s') :: set_field k s rest
  end.

Definition spread (shape more : list (string * schema)) : list (string * schema) :=
  fold_left (fun acc ks => set_field (fst ks) (snd ks) acc) more shape.

(** [.pick({ k: true, .. })]: the named keys the schema has, in the order
    of the mask. *)
Definition pick (mask : list string) (s : schema) : schema :=
  ZObject (omap (fun k => pair k <$> lookup_field k (shape_of s)) mask).

Definition extend (more : list (string * schema)) (s : schema) : schema :=
  ZObject (spread (shape_of s) more).

Definition merge (other : schema) (s : schema) : schema :=
  ZObject (spread (shape_of s) (shape_of other)).

Definition partial (s : schema) : schema :=
  ZObject (map (fun ks => (fst ks, ZOptional (snd ks))) (shape_of s)).

(** *** Parsing *)

(** An issue; its further fields (expected, received, minimum, ..) are
    left out. *)
Record issue : Type := {
  issue_code : string;
  issue_path : list string;
  issue_message : jsstring;
}.

(** As Zod: [valid], [dirty] (a check failed, the value is still there) or
    [aborted]. *)
Inductive status : Type := valid | dirty | aborted.

Record outcome : Type := {
  outcome_status : status;
  outcome_value : value;
  outcome_issues : list issue;
}.

Definition ok (v : value) : outcome :=
  {| outcome_status := valid; outcome_value := v; outcome_issues := [] |}.

Definition worse (a b : status) : status :=
  match a, b with
  | aborted, _ | _, aborted => aborted
  | dirty, _ | _, dirty => dirty
  | valid, valid => valid
  end.

Section Parsing.

Context `{ZodLib}.

Definition message_or_default (code : string) (message : option jsstring) : jsstring :=
  match message with
  | Some m => m
  | None => errorMap code
  end.

Definition invalid (code : string) (path : list string) (input : value) : outcome :=
  {| outcome_status := aborted; outcome_value := input;
     outcome_issues := [ {| issue_code := code; issue_path := path;
                            issue_message := errorMap code |} ] |}.

Definition string_check_passes (c : string_check) (s : jsstring) : bool :=
  match c with
  | check_email _ => is_email s
  | check_uuid => is_uuid s
  | check_datetime => is_datetime s
  | check_min n _ => Nat.leb n (length s)
  | check_max n _ => Nat.leb (length s) n
  | check_regex test _ => test s
  end.

Definition string_check_issue (c : string_check) (path : list string) : issue :=
  match c with
  | check_email m =>
      {| issue_code := "invalid_string"; issue_path := path;
         issue_message := message_or_default "invalid_string" m |}
  | check_uuid | check_datetime =>
      {| issue_code := "invalid_string"; issue_path := path;
         issue_message := errorMap "invalid_string" |}
  | check_min _ m =>
      {| issue_code := "too_small"; issue_path := path;
         issue_message := message_or_default "too_small" m |}
  | check_max _ m =>
      {| issue_code := "too_big"; issue_path := path;
         issue_message := message_or_default "too_big" m |}
  | check_regex _ m =>
      {| issue_code := "invalid_string"; issue_path := path;
         issue_message := message_or_default "invalid_string" m |}
  end.

(** [Number.isInteger] *)
Definition is_integer (n : number) : bool :=
  match n with
  | Finite q => Z.eqb (Qnum q mod Zpos (Qden q)) 0
  | _ => false
  end.

(** [a <= b] on numbers other than NaN. *)
Definition number_le (a b : number) : bool :=
  match a, b with
  | NaN, _ | _, NaN => false
  | Infinity true, _ => true
  | _, Infinity false => true
  | Infinity false, _ => false
  | _, Infinity true => false
  | Finite x, Finite y => Qle_bool x y
  end.

Definition number_check_passes (c : number_check) (n : number) : bool :=
  match c with
  | check_int => is_integer n
  | check_ge bound => number_le (Finite bound) n
  | check_le bound => number_le n (Finite bound)
  end.

Definition number_check_issue (c : number_check) (path : list string) : issue :=
  match c with
  | check_int =>
      {| issue_code := "invalid_type"; issue_path := path;
         issue_message := errorMap "invalid_type" |}
  | check_ge _ =>
      {| issue_code := "too_small"; issue_path := path;
         issue_message := errorMap "too_small" |}
  | check_le _ =>
      {| issue_code := "too_big"; issue_path := path;
         issue_message := errorMap "too_big" |}
  end.

(** The issues of the checks that fail; every check is run. *)
Definition failed_string_checks (checks : list string_check) (s : jsstring)
    (path : list string) : list issue :=
  map (fun c => string_check_issue c path)
      (List.filter (fun c => negb (string_check_passes c s)) checks).

Definition failed_number_checks (checks : list number_check) (n : number)
    (path : list string) : list issue :=
  map (fun c => number_check_issue c path)
      (List.filter (fun c => negb (number_check_passes c n)) checks).

(** Whether [z.object] takes an object of the class for an object: an
    object literal (and what [JSON.parse] makes) always, the instance of
    another class as the library detects its type.  Values hold no
    functions, so an object literal is never a thenable. *)
Definition is_object_class (class : string) : bool :=
  String.eqb class "Object" || instance_is_object class.

Definition parsed_as_object (input : value) : bool :=
  match input with
  | VObject class _ => is_object_class class
  | _ => false
  end.

Definition checked (input : value) (issues : list issue) : outcome :=
  {| outcome_status := match issues with [] => valid | _ => dirty end;
     outcome_value := input; outcome_issues := issues |}.

(** One parsed key of an object: the key, whether the input has it, and
    the outcome for its value. *)
Definition parsed_field : Type := string * bool * outcome.

(** The parsed object: unknown keys are stripped; a key is kept when the
    input has it or its parsed value is not [undefined]. *)
Definition merge_object (fields : list parsed_field) : outcome :=
  {| outcome_status :=
       fold_right (fun f acc => worse (outcome_status (snd f)) acc) valid fields;
     outcome_value :=
       obj (omap (fun f : parsed_field =>
                    let '(k, present, o) := f in
                    match outcome_value o with
                    | VUndefined => if present then Some (k, VUndefined) else None
                    | v => Some (k, v)
                    end) fields);
     outcome_issues := concat (map (fun f => outcome_issues (snd f)) fields) |}.

Fixpoint parse_at (s : schema) (path : list string) (input : value) : outcome :=
  match s with
  | ZString checks =>
      match input with
      | VString str => checked input (failed_string_checks checks str path)
      | _ => invalid "invalid_type" path input
      end
  | ZNumber checks =>
      match input with
      | VNumber NaN => invalid "invalid_type" path input
      | VNumber n => checked input (failed_number_checks checks n path)
      | _ => invalid "invalid_type" path input
      end
  | ZBoolean =>
      match input with
      | VBool _ => ok input
      | _ => invalid "invalid_type" path input
      end
  | ZEnum options =>
      match input with
      | VString str =>
          if bool_decide (str ∈ options) then ok input
          else invalid "invalid_enum_value" path input
      | _ => invalid "invalid_type" path input
      end
  | ZObject shape =>
      match input with
      | VObject class props =>
          if is_object_class class then
            merge_object
              ((fix fields (shape : list (string * schema)) : list parsed_field :=
                  match shape with
                  | [] => []
                  | (k, child) :: rest =>
                      (k, has_prop k props,
                       parse_at child (path ++ [k])
                         (option.default VUndefined (lookup_prop k props)))
                      :: fields rest
                  end) shape)
          else invalid "invalid_type" path input
      | _ => invalid "invalid_type" path input
      end
  | ZOptional inner =>
      match input with
      | VUndefined => ok VUndefined
      | _ => parse_at inner path input
      end
  | ZDefault inner d =>
      match input with
      | VUndefined => parse_at inner path d
      | _ => parse_at inner path input
      end
  | ZTransform inner f =>
      let base := parse_at inner path input in
      match outcome_status base with
      | valid => ok (f (outcome_value base))
      | _ => base
      end
  | ZPipe first second =>
      let base := parse_at first path input in
      match outcome_status base with
      | valid => parse_at second path (outcome_value base)
      | _ => base
      end
  | ZRefine inner check message at_path =>
      let base := parse_at inner path input in
      match outcome_status base with
      | aborted => base
      | _ =>
          if check (outcome_value base) then base
          else {| outcome_status := dirty; outcome_value := outcome_value base;
                  outcome_issues := outcome_issues base ++
                    [ {| issue_code := "custom"; issue_path := path ++ at_path;
                         issue_message := message |} ] |}
      end
  end.

(** *** [safeParse] and [parse] *)

Definition issue_value (i : issue) : value :=
  obj [ ("code", lit (issue_code i));
        ("path", VArray (map lit (issue_path i)));
        ("message", VString (issue_message i)) ].

(** A [ZodError]: its [issues] and, where the library defines it, their
    alias [errors]. *)
Definition ZodError (issues : value) : value :=
  VObject "ZodError"
    (("issues", issues) :: if errors_alias then [("errors", issues)] else []).

Inductive safe_parse_result : Type :=
| success_with (data : value)           (* { success: true, data } *)
| failure_with (error : value).         (* { success: false, error } *)

Definition success (r : safe_parse_result) : bool :=
  match r with
  | success_with _ => true
  | failure_with _ => false
  end.

Definition safeParse (s : schema) (input : value) : safe_parse_result :=
  let o := parse_at s [] input in
  match outcome_status o with
  | valid => success_with (outcome_value o)
  | _ => failure_with (ZodError (VArray (map issue_value (outcome_issues o))))
  end.

Definition parse (s : schema) (input : value) : completion value :=
  match safeParse s input with
  | success_with data => Normal data
  | failure_with error => Throw error
  end.

End Parsing.

(** *** A schema as the pipe sees it: an object with a [parse] method *)

Record ZodSchema : Type := { parse_method : value -> completion value }.

Definition as_ZodSchema `{ZodLib} (s : schema) : ZodSchema :=
  {| parse_method := parse s |}.

(** The contract of [parse]: it returns the parsed value or throws a
    [ZodError]. *)
Definition throws_ZodError_only `{ZodLib} (s : ZodSchema) : Prop :=
  forall input e, parse_method s input = Throw e -> exists issues, e = ZodError issues.

End Zod.

(* ================================================================== *)
(** ** Backend (NestJS) examples of the guide *)
(* ================================================================== *)

Module Backend.

Import Zod.

(** [new BadRequestException(body)] of [@nestjs/common]: an HTTP 400 whose
    response is [body]. *)
Definition new_BadRequestException (body : value) : value :=
  VObject "BadRequestException" [("response", body); ("status", num 400)].

(** *** apps/backend/src/common/pipes/zod-validation.pipe.ts *)

Record ZodValidationPipe : Type := { schema : ZodSchema }.

Definition transform (this : ZodValidationPipe) (input : value) : completion value :=
  try_catch
    (parsedValue ← parse_method (schema this) input;
     mret parsedValue)
    (fun error =>
       errors ← get error "errors";
       Throw (new_BadRequestException
                (obj [ ("message", lit "Validation failed");
                       ("errors", errors) ]))).

(** *** apps/backend/src/modules/users/dto/create-user.dto.ts *)

(** [/^(?=.*[a-z])(?=.*[A-Z])(?=.*\d)/] *)
Definition password_pattern : RegExp.pattern :=
  RegExp.seq (RegExp.lookahead (RegExp.seq (RegExp.star RegExp.dot) (RegExp.class RegExp.lower)))
    (RegExp.seq (RegExp.lookahead (RegExp.seq (RegExp.star RegExp.dot) (RegExp.class RegExp.upper)))
       (RegExp.lookahead (RegExp.seq (RegExp.star RegExp.dot) (RegExp.class RegExp.digit)))).

Definition password_regex : jsstring -> bool := RegExp.test_at_start password_pattern.

Definition createUserSchema : Zod.schema :=
  z_object [
    ("email", z_string |> email (Some "올바른 이메일 형식이 아닙니다."));
    ("name",
      z_string
      |> min 2 (Some "이름은 최소 2자 이상이어야 합니다.")
      |> max 50 (Some "이름은 최대 50자까지 가능합니다."));
    ("password",
      z_string
      |> min 8 (Some "비밀번호는 최소 8자 이상이어야 합니다.")
      |> regex password_regex (Some "비밀번호는 대소문자와 숫자를 포함해야 합니다."));
    ("age", z_number |> int |> number_min 0 |> number_max 150 |> optional)
  ].

(** *** apps/backend/src/modules/users/users.controller.ts *)

(** The injected service; its code is not part of the guide. *)
Record UsersService : Type := { create : value -> completion value }.

Record UsersController : Type := { usersService : UsersService }.

Definition UsersController_create (this : UsersController) (createUserDto : value)
  : completion value :=
  create (usersService this) createUserDto.

Definition UsersController_createAlternative (this : UsersController)
    (createUserDto : value) : completion value :=
  create (usersService this) createUserDto.

(** [@Post() @UsePipes(new ZodValidationPipe(createUserSchema))]: Nest runs
    the pipe on the request body and calls the handler with its result. *)
Definition post_users `{ZodLib} (this : UsersController) (body : value)
  : completion value :=
  createUserDto ← transform {| schema := as_ZodSchema createUserSchema |} body;
  UsersController_create this createUserDto.

(** *** apps/backend/src/config/env.validation.ts *)

(** The global [Number] applied to a string (StringToNumber), taken as
    given.  Behind [z.string()] only strings reach [Number]. *)
Class JsRuntime : Type := { StringToNumber : jsstring -> number }.

Definition Number `{JsRuntime} (v : value) : value :=
  match v with
  | VString s => VNumber (StringToNumber s)
  | VNumber n => VNumber n
  | VBool b => num (if b then 1 else 0)
  | VNull => num 0
  | _ => VNumber NaN
  end.

Definition envSchema `{JsRuntime} : Zod.schema :=
  z_object [
    ("NODE_ENV", z_enum ["development"; "production"; "test"]);
    ("PORT", z_string |> Zod.transform Number
                      |> pipe (z_number |> number_min 1 |> number_max 65535));
    ("DATABASE_HOST", z_string |> min 1 None);
    ("DATABASE_PORT", z_string |> Zod.transform Number);
    ("DATABASE_NAME", z_string |> min 1 None);
    ("JWT_SECRET", z_string |> min 32 (Some "JWT_SECRET은 최소 32자 이상이어야 합니다."));
    ("JWT_EXPIRES_IN", z_string |> default (lit "1h"))
  ].

(** The console output and the completion of [validateEnv()]. *)
Definition validateEnv `{ZodLib} `{JsRuntime} (process_env : gmap string jsstring)
  : list console_line * completion value :=
  match parse envSchema (env_object process_env) with
  | Normal env => ([], Normal env)
  | Throw error =>
      match get error "errors" with
      | Normal errors =>
          ([ [lit "❌ Invalid environment variables:"; errors] ],
           Throw (new_Error (js "Environment validation failed")))
      | Throw e => ([], Throw e)
      end
  end.

End Backend.

(* ================================================================== *)
(** ** Mobile (React Native) examples of the guide *)
(* ================================================================== *)

Module Mobile.

Import Zod.

(** *** apps/mobile/src/api/schemas/user.schema.ts *)

Definition userSchema : Zod.schema :=
  z_object [
    ("id", z_string);
    ("email", z_string |> email None);
    ("name", z_string);
    ("createdAt", z_string |> datetime)
  ].

Definition getUserResponseSchema : Zod.schema :=
  z_object [
    ("success", z_boolean);
    ("data", userSchema)
  ].

(** *** apps/mobile/src/api/user.api.ts *)

(** [axios.get] (awaited) and the [API_URL] of [@env]. *)
Class ApiClient : Type := {
  axios_get : jsstring -> completion value;
  API_URL : jsstring;
}.

Section UserApi.

Context `{ZodLib} `{ApiClient}.

Definition getUser (id : jsstring) : completion value :=
  response ← axios_get (API_URL ++ js "/users/" ++ id);
  data ← get response "data";
  validatedData ← parse getUserResponseSchema data;
  mret validatedData.

(** The [try] block of [getUserSafe]. *)
Definition getUserSafe_try (id : jsstring) : list console_line * completion value :=
  match axios_get (API_URL ++ js "/users/" ++ id) with
  | Throw e => ([], Throw e)
  | Normal response =>
      match get response "data" with
      | Throw e => ([], Throw e)
      | Normal data =>
          match safeParse getUserResponseSchema data with
          | failure_with error =>
              ([ [lit "API 응답 검증 실패:"; error] ],
               Throw (new_Error (js "잘못된 API 응답 형식")))
          | success_with data => ([], Normal data)
          end
      end
  end.

Definition getUserSafe (id : jsstring) : list console_line * completion value :=
  match getUserSafe_try id with
  | (console, Normal data) => (console, Normal data)
  | (console, Throw error) =>
      (console ++ [ [lit "API 호출 실패:"; error] ], Throw error)
  end.

End UserApi.

(** *** apps/mobile/src/screens/auth/SignupScreen.tsx *)

(** [===] on the values that occur here. *)
Definition strict_equal (a b : value) : bool :=
  match a, b with
  | VString x, VString y => bool_decide (x = y)
  | VUndefined, VUndefined | VNull, VNull => true
  | VBool x, VBool y => Bool.eqb x y
  | _, _ => false
  end.

Definition signupSchema : Zod.schema :=
  z_object [
    ("email", z_string |> email (Some "올바른 이메일을 입력하세요."));
    ("password", z_string |> min 8 (Some "비밀번호는 최소 8자 이상이어야 합니다."));
    ("passwordConfirm", z_string)
  ]
  |> refine
       (fun data =>
          strict_equal (option.default VUndefined (prop "password" data))
                       (option.default VUndefined (prop "passwordConfirm" data)))
       "비밀번호가 일치하지 않습니다." ["passwordConfirm"].

(** What [useForm] returns, as far as the screen uses it. *)
Record UseFormReturn (handler control : Type) : Type := {
  form_control : control;
  (** [handleSubmit(onSubmit)] *)
  handleSubmit : (value -> list console_line) -> handler;
  (** [formState.errors[name]], [undefined] without an error *)
  errors : string -> value;
}.
Arguments form_control {handler control} _.
Arguments handleSubmit {handler control} _ _.
Arguments errors {handler control} _ _.

(** react-hook-form and its Zod resolver, taken as given.  [handler] is
    the type of callbacks. *)
Class ReactHookForm : Type := {
  handler : Type;
  control : Type;
  resolver : Type;
  zodResolver : Zod.schema -> resolver;
  useForm : resolver -> UseFormReturn handler control;
}.

Section SignupScreen.

Context `{ReactHookForm}.

(** The [field] a [Controller] hands to [render]. *)
Record field : Type := { onChange : handler; field_value : value }.

(** React Native elements, as far as the screen uses them. *)
Inductive element : Type :=
| View (children : list element)
| Text (children : value)
| TextInput (placeholder : jsstring) (value : value) (onChangeText : handler)
            (secureTextEntry : bool)
| Button (title : jsstring) (onPress : handler)
| Controller (control : control) (name : string) (render : field -> element).

(** [{error && <Text>{error.message}</Text>}]: nothing is rendered for a
    falsy [error]. *)
Definition error_text (error : value) : list element :=
  if to_boolean error
  then [Text (option.default VUndefined (prop "message" error))]
  else [].

Definition onSubmit (data : value) : list console_line :=
  [ [lit "Valid data:"; data] ].

Definition SignupScreen : element :=
  let form := useForm (zodResolver signupSchema) in
  View [
    Controller (form_control form) "email"
      (fun f =>
         View (TextInput (js "이메일") (field_value f) (onChange f) false
               :: error_text (errors form "email")));
    Controller (form_control form) "password"
      (fun f =>
         View (TextInput (js "비밀번호") (field_value f) (onChange f) true
               :: error_text (errors form "password")));
    Button (js "회원가입") (handleSubmit form onSubmit)
  ].

Definition children_of (e : element) : list element :=
  match e with
  | View children => children
  | _ => []
  end.

End SignupScreen.

End Mobile.

(* ================================================================== *)
(** ** Shared schemas and the guide's further examples *)
(* ================================================================== *)

Module SharedTypes.

Import Zod.

(** *** packages/shared-types/src/schemas/user.schema.ts *)

Definition userSchema : Zod.schema :=
  z_object [
    ("id", z_string |> uuid);
    ("email", z_string |> email None);
    ("name", z_string |> min 2 None |> max 50 None);
    ("createdAt", z_string |> datetime);
    ("updatedAt", z_string |> datetime)
  ].

Definition createUserSchema : Zod.schema :=
  userSchema
  |> pick ["email"; "name"]
  |> extend [("password", z_string |> min 8 None)].

Definition updateUserSchema : Zod.schema :=
  userSchema |> pick ["name"] |> partial.

(** *** packages/shared-types/src/schemas/auth.schema.ts *)

Definition loginSchema : Zod.schema :=
  z_object [
    ("email", z_string |> email None);
    ("password", z_string |> min 8 None)
  ].

Definition loginResponseSchema : Zod.schema :=
  z_object [
    ("accessToken", z_string);
    ("refreshToken", z_string);
    ("user", z_object [
      ("id", z_string);
      ("email", z_string);
      ("name", z_string)
    ])
  ].

End SharedTypes.

Module Advanced.

Import Zod.

(** "커스텀 검증": the three requirements on a password, each as a
    [refine] of its own. *)
Definition on_string (test : jsstring -> bool) (v : value) : bool :=
  match v with
  | VString s => test s
  | _ => false
  end.

Definition passwordSchema : Zod.schema :=
  z_string
  |> min 8 None
  |> refine (on_string (RegExp.test_class RegExp.upper))
       "대문자를 최소 1개 포함해야 합니다." []
  |> refine (on_string (RegExp.test_class RegExp.lower))
       "소문자를 최소 1개 포함해야 합니다." []
  |> refine (on_string (RegExp.test_class RegExp.digit))
       "숫자를 최소 1개 포함해야 합니다." [].

(** "재사용 가능한 스키마" *)
Definition timestampSchema : Zod.schema :=
  z_object [
    ("createdAt", z_string |> datetime);
    ("updatedAt", z_string |> datetime)
  ].

Definition userSchema : Zod.schema :=
  z_object [
    ("id", z_string);
    ("name", z_string)
  ]
  |> merge timestampSchema.

End Advanced.

Module Guide.

(** The three [userSchema] examples of the guide: the mobile API schema,
    the shared schema and the merged one of "재사용 가능한 스키마". *)
Definition userSchema_examples : list Zod.schema :=
  [Mobile.userSchema; SharedTypes.userSchema; Advanced.userSchema].

(** The schemas of what a client sends to create a user or to log in. *)
Definition input_schemas : list Zod.schema :=
  [Backend.createUserSchema; SharedTypes.createUserSchema; SharedTypes.loginSchema].

End Guide.

(* ================================================================== *)
(** ** The Jest snippet of the guide ("베스트 프랙티스", 5. 테스트) *)
(* ================================================================== *)

Module Jest.

Import Zod.

(** One [it(title, () => { .. })]: the identifiers and member names its
    body mentions, in order of first occurrence, and its verdict for the
    [userSchema] in scope. *)
Record test : Type := it {
  title : string;
  mentions : list string;
  passes : Zod.schema -> bool;
}.

Record suite : Type := describe {
  suite_name : string;
  tests : list test;
}.

(** [expect(actual).toBe(expected)] on booleans. *)
Definition expect_toBe (actual expected : bool) : bool := Bool.eqb actual expected.

Definition valid_user : value :=
  obj [ ("id", lit "123");
        ("email", lit "test@example.com");
        ("name", lit "Test User") ].

Definition invalid_email_user : value :=
  obj [ ("id", lit "123");
        ("email", lit "invalid-email");
        ("name", lit "Test") ].

Section WithZod.

Context `{ZodLib}.

Definition user_suite : suite :=
  describe "유저" [
    it "유효한 유저 데이터 검증"
       ["result"; "userSchema"; "safeParse"; "id"; "email"; "name";
        "expect"; "success"; "toBe"]
       (fun userSchema =>
          let result := safeParse userSchema valid_user in
          expect_toBe (success result) true);
    it "무효한 이메일 유저 검증"
       ["result"; "userSchema"; "safeParse"; "id"; "email"; "name";
        "expect"; "success"; "toBe"]
       (fun userSchema =>
          let result := safeParse userSchema invalid_email_user in
          expect_toBe (success result) false)
  ].

(** The test snippets of the supplied files: this is the only one. *)
Definition test_snippets : list suite := [user_suite].

Definition all_tests : list test := concat (map tests test_snippets).

End WithZod.

(** A test of a button's [onPress] mentions the handler; a test of a
    thrown exception mentions [toThrow] or an exception class. *)
Definition exercises_onPress (t : test) : bool :=
  bool_decide ("onPress" ∈ mentions t).

Definition exercises_exception (t : test) : bool :=
  existsb (fun name => bool_decide (name ∈ mentions t))
          ["toThrow"; "ConflictException"; "NotFoundException";
           "BadRequestException"; "Error"].

End Jest.

(* ================================================================== *)
(** ** The supplied files *)
(* ================================================================== *)

Module Repository.

Inductive content : Type :=
| document (heading : string)                  (* Markdown: its first heading *)
| configuration (file : Tooling.config_file).  (* a configuration module *)

(** A file; the names of four files are not known. *)
Record source_file : Type := {
  file_name : option string;
  file_content : content;
}.

Definition supplied_files : list source_file := [
  {| file_name := Some "README.md"; file_content := document "moim" |};
  {| file_name := Some "ZOD_GUIDE.md"; file_content := document "Zod 사용 가이드" |};
  {| file_name := Some "apps/mobile/babel.config.js";
     file_content := configuration Tooling.babel_config_js |};
  {| file_name := None; file_content := document "환경 변수 설정 가이드" |};
  {| file_name := None; file_content := configuration Tooling.metro_config_js |};
  {| file_name := None; file_content := configuration Tooling.eslint_config_mjs |};
  {| file_name := None; file_content := configuration Tooling.prettier_config_js |}
].

Definition is_document (f : source_file) : bool :=
  match file_content f with
  | document _ => true
  | configuration _ => false
  end.

Definition documents : list source_file := filter (fun f => is_document f = true) supplied_files.

(** The part of a path after its last "/". *)
Fixpoint base_name_from (acc : string) (path : string) : string :=
  match path with
  | EmptyString => acc
  | String c rest =>
      if Ascii.eqb c "/" then base_name_from EmptyString rest
      else base_name_from (acc ++ String c EmptyString) rest
  end.

Definition base_name (path : string) : string := base_name_from EmptyString path.

Definition named (name : string) (f : source_file) : bool :=
  match file_name f with
  | Some path => String.eqb (base_name path) name
  | None => false
  end.

Definition headed (heading : string) (f : source_file) : bool :=
  match file_content f with
  | document h => String.eqb h heading
  | configuration _ => false
  end.

Global Instance content_eq_dec : EqDecision content.
Proof. solve_decision. Defined.

Global Instance source_file_eq_dec : EqDecision source_file.
Proof. solve_decision. Defined.

End Repository.

(* ================================================================== *)
(** ** The statements under test, in the specification's words *)
(* ================================================================== *)

Module Stated.

Import Zod.

(** "Three AGENTS.md files, README.md, ZOD_GUIDE.md and one
    environment-variable guide are all present": six different documents
    among the supplied files, three of them named AGENTS.md. *)
Definition six_documents_present : Prop :=
  exists agents1 agents2 agents3 readme zod_guide env_guide,
    NoDup [agents1; agents2; agents3; readme; zod_guide; env_guide] /\
    Forall (fun f => f ∈ Repository.documents)
           [agents1; agents2; agents3; readme; zod_guide; env_guide] /\
    Forall (fun f => Repository.named "AGENTS.md" f = true)
           [agents1; agents2; agents3].


(** "A user row with the fields id, email, name, password and
    timestamps." *)
Definition user_row_fields (s : Zod.schema) : Prop :=
  "id" ∈ keys s /\ "email" ∈ keys s /\ "name" ∈ keys s /\ "password" ∈ keys s /\
  "createdAt" ∈ keys s.

(** "There is a test exercising a button's onPress handler and one
    exercising a duplicate-email exception." *)
Definition onPress_and_exception_tests `{ZodLib} : Prop :=
  (exists t, t ∈ Jest.all_tests /\ Jest.exercises_onPress t = true) /\
  (exists t, t ∈ Jest.all_tests /\ Jest.exercises_exception t = true).

(** The acceptance condition of the backend DTO schema: "email is a string
    in valid email format; name is a string of length 2 to 50; password is
    a string of length at least 8 with a lowercase letter, an uppercase
    letter and a digit; age, when present, is an integer from 0 to 150". *)
Definition age_omitted (props : list (string * value)) : Prop :=
  lookup_prop "age" props = None \/ lookup_prop "age" props = Some VUndefined.

(** [searched p] is the part of the password [p] in which the three kinds
    of characters are looked for: the whole password in the statement. *)
Definition createUser_acceptable_in `{ZodLib} (searched : jsstring -> jsstring)
    (input : value) : Prop :=
  exists class props, input = VObject class props /\
    (exists e, lookup_prop "email" props = Some (VString e) /\ is_email e = true) /\
    (exists n, lookup_prop "name" props = Some (VString n) /\
               2 <= length n /\ length n <= 50) /\
    (exists p, lookup_prop "password" props = Some (VString p) /\
               8 <= length p /\
               existsb RegExp.lower (searched p) = true /\
               existsb RegExp.upper (searched p) = true /\
               existsb RegExp.digit (searched p) = true) /\
    (age_omitted props \/
     exists q z, lookup_prop "age" props = Some (VNumber (Finite q)) /\
                 Qeq q (inject_Z z) /\ (0 <= z <= 150)%Z).

Definition createUser_acceptable `{ZodLib} (input : value) : Prop :=
  createUser_acceptable_in (fun p => p) input.

(** The schema accepts the input: [parse] returns. *)
Definition accepts `{ZodLib} (s : Zod.schema) (input : value) : Prop :=
  exists data, parse s input = Normal data.



End Stated.

(* ================================================================== *)
(** ** Concrete hosts and packages, for evaluating the definitions *)
(* ================================================================== *)

Module Samples.

Import Metro Eslint.

Definition mobile_dir : jsstring := js "/home/dev/moim/apps/mobile".

Definition dev_host : host :=
  {| process_env := ∅; cwd := js "/home/dev/moim"; __dirname := mobile_dir |}.

Definition prod_host : host :=
  {| process_env := {[ "ENV_FILE" := js ".env.prod" ]};
     cwd := js "/home/dev/moim"; __dirname := mobile_dir |}.


(** [ENV_FILE=] (set, but empty). *)
Definition empty_env_file_host : host :=
  {| process_env := {[ "ENV_FILE" := [] ]};
     cwd := js "/home/dev/moim"; __dirname := mobile_dir |}.

(** react-hook-form without state: no errors, callbacks are not run. *)
Definition react_hook_form : Mobile.ReactHookForm :=
  {| Mobile.handler := unit;
     Mobile.control := unit;
     Mobile.resolver := Zod.schema;
     Mobile.zodResolver := fun s => s;
     Mobile.useForm := fun _ =>
       {| Mobile.form_control := tt;
          Mobile.handleSubmit := fun _ => tt;
          Mobile.errors := fun _ => VUndefined |} |}.

(** Stand-ins for the imported packages.  The Metro defaults carry the
    project root and the server port, read from [RCT_METRO_PORT]; the
    merge puts the keys of the overriding configuration in front of the
    defaults.  The plugins export a [configs.flat.recommended]. *)
Definition props_of (v : value) : list (string * value) :=
  match v with
  | VObject _ props => props
  | _ => []
  end.

Definition metro_pkg : MetroConfigPkg :=
  {| getDefaultConfig := fun h dir =>
       obj [ ("projectRoot", VString dir);
             ("server",
              obj [("port", or_else (env_get (process_env h) "RCT_METRO_PORT")
                                    (lit "8081"))]) ];
     mergeConfig := fun defaults override =>
       obj (props_of override ++ props_of defaults) |}.

Definition plugin_with_recommended (name : string) : value :=
  obj [("configs", obj [("flat", obj [("recommended", obj [("name", lit name)])])])].

Definition eslint_pkgs : EslintPkgs :=
  {| reactHooks := plugin_with_recommended "react-hooks/recommended";
     reactNativeConfig := obj [("name", lit "@react-native")];
     eslintConfigPrettier := obj [("name", lit "config-prettier")];
     react := plugin_with_recommended "react/recommended";
     defineConfig := fun configs => configs |}.

(** Stand-ins for Zod's format tests: an address has an "@", a UUID has
    36 code units, a datetime ends in "Z".  Class instances and the
    [errors] alias are as in Zod 3. *)
Definition zod_lib : Zod.ZodLib :=
  {| Zod.is_email := fun s => existsb (N.eqb 64) s;
     Zod.is_uuid := fun s => Nat.eqb (length s) 36;
     Zod.is_datetime := fun s => match rev s with c :: _ => N.eqb c 90 | [] => false end;
     Zod.errorMap := fun code => js code;
     Zod.instance_is_object := fun class =>
       negb (bool_decide (class ∈ ["Date"; "Map"; "Set"; "Promise"]));
     Zod.errors_alias := true |}.

(** A request body the DTO schema accepts. *)
Definition good_body : value :=
  obj [ ("email", lit "test@example.com");
        ("name", lit "Test User");
        ("password", lit "Passw0rdPassw0rd") ].

(** The same body with a line feed in front of the password. *)
Definition newline_password : jsstring := 10%N :: js "Abcdefg1".

Definition newline_body : value :=
  obj [ ("email", lit "test@example.com");
        ("name", lit "Test User");
        ("password", VString newline_password) ].

(** [Number] on strings of decimal digits; NaN otherwise. *)
Definition decimal (s : jsstring) : number :=
  if forallb RegExp.digit s && negb (Nat.eqb (length s) 0)
  then Finite (inject_Z (fold_left (fun acc c => acc * 10 + (Z.of_N c - 48))%Z s 0%Z))
  else NaN.

Definition js_runtime : Backend.JsRuntime := {| Backend.StringToNumber := decimal |}.

(** A client without network: every request fails. *)
Definition network_error : value := VObject "AxiosError" [("message", lit "Network Error")].

Definition offline_client : Mobile.ApiClient :=
  {| Mobile.axios_get := fun _ => Throw network_error;
     Mobile.API_URL := js "http://localhost:3000" |}.

(** A server that answers every request with a body that is no user. *)
Definition odd_server : Mobile.ApiClient :=
  {| Mobile.axios_get := fun _ => Normal (obj [("data", obj [("success", VBool true)])]);
     Mobile.API_URL := js "http://localhost:3000" |}.

Definition dto_pipe : Backend.ZodValidationPipe :=
  {| Backend.schema := @Zod.as_ZodSchema zod_lib Backend.createUserSchema |}.



(** A service that stores nothing and echoes the DTO. *)
Definition echo_service : Backend.UsersService := {| Backend.create := fun dto => Normal dto |}.

End Samples.

(* ================================================================== *)
(** ** The login call of the guide ("Backend와 Mobile에서 사용") *)
(* ================================================================== *)

Module Auth.

Import Zod.

(** [axios.post] (awaited), taken as given. *)
Class HttpPost : Type := {
  axios_post : jsstring -> value -> completion value;
}.

Section AuthApi.

Context `{ZodLib} `{HttpPost}.

(** [authApi.login(email, password)] *)
Definition login (email password : jsstring) : completion value :=
  validatedInput ← parse SharedTypes.loginSchema
                     (obj [("email", VString email); ("password", VString password)]);
  response ← axios_post (js "/auth/login") validatedInput;
  data ← get response "data";
  parse SharedTypes.loginResponseSchema data.

End AuthApi.

End Auth.

(* ================================================================== *)
(** ** Further concrete inputs *)
(* ================================================================== *)

Module Cases.

(** A complete environment file for the backend. *)
Definition backend_env : gmap string jsstring :=
  <[ "NODE_ENV" := js "development" ]>
  (<[ "PORT" := js "3000" ]>
  (<[ "DATABASE_HOST" := js "localhost" ]>
  (<[ "DATABASE_PORT" := js "5432" ]>
  (<[ "DATABASE_NAME" := js "moim_dev" ]>
  (<[ "JWT_SECRET" := js "0123456789abcdef0123456789abcdef" ]>
  (<[ "LOG_LEVEL" := js "debug" ]> ∅)))))).

(** The environment of the guide's sample file: its [JWT_SECRET],
    "your-secret-key", has 15 code units. *)
Definition guide_env : gmap string jsstring :=
  <[ "JWT_SECRET" := js "your-secret-key" ]> backend_env.

(** A server that answers with a user and one field more. *)
Definition user_response : value :=
  obj [ ("data",
         obj [ ("success", VBool true);
               ("data", obj [ ("id", lit "42");
                              ("email", lit "test@example.com");
                              ("name", lit "Test User");
                              ("createdAt", lit "2025-01-01T00:00:00Z");
                              ("passwordHash", lit "secret") ]) ]) ].

Definition user_server : Mobile.ApiClient :=
  {| Mobile.axios_get := fun _ => Normal user_response;
     Mobile.API_URL := js "http://localhost:3000" |}.

(** A request body with a field the DTO does not know. *)
Definition admin_body : value :=
  obj [ ("email", lit "test@example.com");
        ("name", lit "Test User");
        ("password", lit "Passw0rdPassw0rd");
        ("role", lit "admin") ].

(** A service that fails on every call. *)
Definition failing_service : Backend.UsersService :=
  {| Backend.create := fun _ => Throw (new_Error (js "unreachable")) |}.

(** An authentication server that answers every login with tokens, the
    user and one field more. *)
Definition login_response : value :=
  obj [ ("data",
         obj [ ("accessToken", lit "a");
               ("refreshToken", lit "r");
               ("user", obj [ ("id", lit "42");
                              ("email", lit "test@example.com");
                              ("name", lit "Test User");
                              ("passwordHash", lit "secret") ]) ]) ].

Definition auth_server : Auth.HttpPost :=
  {| Auth.axios_post := fun _ _ => Normal login_response |}.

(** An older eslint-plugin-react-hooks: [configs.recommended], no
    [configs.flat]. *)
Definition legacy_plugin : value :=
  obj [("configs", obj [("recommended", obj [("name", lit "legacy")])])].

Definition legacy_eslint_pkgs : Eslint.EslintPkgs :=
  {| Eslint.reactHooks := legacy_plugin;
     Eslint.reactNativeConfig := obj [("name", lit "@react-native")];
     Eslint.eslintConfigPrettier := obj [("name", lit "config-prettier")];
     Eslint.react := Samples.plugin_with_recommended "react/recommended";
     Eslint.defineConfig := fun configs => configs |}.

(** The app directory started from another working directory. *)
Definition other_cwd_host : host :=
  {| process_env := ∅; cwd := js "/tmp"; __dirname := Samples.mobile_dir |}.

(** The development server moved to another port. *)
Definition other_port_host : host :=
  {| process_env := {[ "RCT_METRO_PORT" := js "9090" ]};
     cwd := js "/home/dev/moim"; __dirname := Samples.mobile_dir |}.

(** As [Samples.zod_lib], but a [ZodError] has [issues] only. *)
Definition zod_lib_issues_only : Zod.ZodLib :=
  {| Zod.is_email := @Zod.is_email Samples.zod_lib;
     Zod.is_uuid := @Zod.is_uuid Samples.zod_lib;
     Zod.is_datetime := @Zod.is_datetime Samples.zod_lib;
     Zod.errorMap := @Zod.errorMap Samples.zod_lib;
     Zod.instance_is_object := fun _ => true;
     Zod.errors_alias := false |}.




(** A [Date], which has no properties of its own. *)
Definition a_date : value := VObject "Date" [].

(** A [Date] that was given the fields of a request body. *)
Definition date_body : value :=
  VObject "Date" [ ("email", lit "test@example.com");
                   ("name", lit "Test User");
                   ("password", lit "Passw0rdPassw0rd");
                   ("passwordConfirm", lit "Passw0rdPassw0rd") ].

End Cases.


(* ================================================================== *)
(** * Properties *)
(* ================================================================== *)

(** ** Paths *)

Section PathLemmas.

Local Open Scope N_scope.

Lemma split_path_no_slash (s cur rest : jsstring) :
  ~ In slash s ->
  split_path cur (s ++ rest) = split_path (rev s ++ cur) rest.
Proof.
  revert cur. induction s as [|c s IH]; intros cur Hs; [reflexivity|].
  simpl. destruct (N.eqb_spec c slash) as [->|Hc].
  - exfalso. apply Hs. now left.
  - rewrite IH.
    + now rewrite <- app_assoc.
    + intros Hin. apply Hs. now right.
Qed.

Lemma split_path_segment (s rest : jsstring) :
  ~ In slash s ->
  split_path [] (s ++ slash :: rest) = s :: split_path [] rest.
Proof.
  intros Hs. rewrite split_path_no_slash by exact Hs.
  cbn [split_path]. rewrite N.eqb_refl, app_nil_r. now rewrite rev_involutive.
Qed.

Lemma join_path_cons (s s' : jsstring) (segs : list jsstring) :
  join_path (s :: s' :: segs) = s ++ slash :: join_path (s' :: segs).
Proof. reflexivity. Qed.

Lemma split_path_join (segs : list jsstring) (s rest : jsstring) :
  Forall plain_segment (segs ++ [s]) ->
  split_path [] (join_path (segs ++ [s]) ++ slash :: rest)
  = segs ++ s :: split_path [] rest.
Proof.
  induction segs as [|s0 segs IH]; intros Hall.
  - simpl. apply split_path_segment.
    inversion Hall as [|? ? Hp _]; subst. apply Hp.
  - inversion Hall as [|? ? Hp Hrest]; subst.
    change ((s0 :: segs) ++ [s]) with (s0 :: (segs ++ [s])).
    destruct (segs ++ [s]) as [|s1 tl] eqn:E.
    + destruct segs; discriminate.
    + rewrite join_path_cons, <- app_assoc, <- app_comm_cons.
      rewrite split_path_segment by apply Hp.
      cbn [app]. f_equal. now apply IH.
Qed.

Lemma normalize_plain (segs stack rest : list jsstring) :
  Forall plain_segment segs ->
  normalize_segments stack (segs ++ rest)
  = normalize_segments (rev segs ++ stack) rest.
Proof.
  revert stack. induction segs as [|s segs IH]; intros stack Hall; [reflexivity|].
  inversion Hall as [|? ? (Hne & _ & Hdot & Hdd) Hrest]; subst.
  simpl. unfold jsstring_eqb.
  rewrite !bool_decide_eq_false_2 by assumption. simpl.
  rewrite IH by assumption. now rewrite <- app_assoc.
Qed.

Lemma resolve_join_two_up (d wd : jsstring) :
  resolve_join [js "../.."; slash :: d; wd] [] = slash :: d ++ slash :: js "../../".
Proof. reflexivity. Qed.

Lemma split_path_slash (p : jsstring) :
  split_path [] (slash :: p) = [] :: split_path [] p.
Proof. reflexivity. Qed.

Lemma normalize_empty_segment (stack segs : list jsstring) :
  normalize_segments stack ([] :: segs) = normalize_segments stack segs.
Proof. reflexivity. Qed.

(** Resolving "../.." against a normal absolute directory drops its last
    two segments. *)
Lemma resolve_two_up (wd : jsstring) (segs : list jsstring) (a b : jsstring) :
  Forall plain_segment (segs ++ [a; b]) ->
  resolve wd [abs_path (segs ++ [a; b]); js "../.."] = abs_path segs.
Proof.
  intros Hall. unfold resolve, abs_path.
  change (rev [slash :: join_path (segs ++ [a; b]); js "../.."] ++ [wd])
    with [js "../.."; slash :: join_path (segs ++ [a; b]); wd].
  rewrite resolve_join_two_up, split_path_slash, normalize_empty_segment.
  replace (segs ++ [a; b]) with ((segs ++ [a]) ++ [b]) in *
    by now rewrite <- app_assoc.
  rewrite split_path_join by exact Hall.
  change (split_path [] (js "../../")) with [js ".."; js ".."; []].
  change (b :: [js ".."; js ".."; []]) with ([b] ++ [js ".."; js ".."; []]).
  rewrite app_assoc, normalize_plain by exact Hall.
  rewrite app_nil_r, !rev_app_distr. cbn [rev app].
  change (normalize_segments (b :: a :: rev segs) [js ".."; js ".."; []])
    with (rev (rev segs)).
  now rewrite rev_involutive.
Qed.

End PathLemmas.

(** ** The configuration files *)

Section Configs.

Import Metro Eslint Tooling.

Lemma dotenv_path_eq (h : host) :
  Babel.dotenv_path (Babel.module_exports h)
  = Some (or_else (env_get (process_env h) "ENV_FILE") (lit ".env.dev")).
Proof. reflexivity. Qed.

(** C8: the [path] option of the react-native-dotenv plugin is the value of
    [ENV_FILE] whenever that variable is set to a non-empty string, and
    ['.env.dev'] whenever it is unset or empty. *)
Theorem babel_dotenv_path_follows_ENV_FILE (h : host) :
  (forall v, process_env h !! "ENV_FILE" = Some v -> v <> [] ->
     Babel.dotenv_path (Babel.module_exports h) = Some (VString v)) /\
  (process_env h !! "ENV_FILE" = None \/ process_env h !! "ENV_FILE" = Some [] ->
     Babel.dotenv_path (Babel.module_exports h) = Some (lit ".env.dev")).
Proof.
  rewrite dotenv_path_eq. unfold env_get, or_else. split.
  - intros v -> Hv. destruct v; [congruence | reflexivity].
  - intros [-> | ->]; reflexivity.
Qed.

Lemma babel_dotenv_path_follows_ENV_FILE_witness :
  Babel.dotenv_path (Babel.module_exports Samples.prod_host) = Some (lit ".env.prod") /\
  Babel.dotenv_path (Babel.module_exports Samples.dev_host) = Some (lit ".env.dev") /\
  Babel.dotenv_path (Babel.module_exports Samples.empty_env_file_host) = Some (lit ".env.dev").
Proof.
  split; [|split].
  - apply (proj1 (babel_dotenv_path_follows_ENV_FILE Samples.prod_host) (js ".env.prod")).
    + reflexivity.
    + discriminate.
  - apply (proj2 (babel_dotenv_path_follows_ENV_FILE Samples.dev_host)).
    left. reflexivity.
  - apply (proj2 (babel_dotenv_path_follows_ENV_FILE Samples.empty_env_file_host)).
    right. reflexivity.
Defined.






(** The condition on [getDefaultConfig] cannot be dropped: with a package
    that reads [RCT_METRO_PORT], two hosts that differ in that variable
    only get different Metro configurations. *)
Lemma metro_export_varies_with_RCT_METRO_PORT :
  same_but_env Samples.dev_host Cases.other_port_host /\
  @Metro.module_exports Samples.metro_pkg Samples.dev_host
  <> @Metro.module_exports Samples.metro_pkg Cases.other_port_host.
Proof.
  split; [split; reflexivity|]. vm_compute. discriminate.
Qed.

(** C7: the Metro [watchFolders] are the monorepo root, two directories
    above the configuration file's directory, and its [packages/ui] and
    [packages/ts-config] subdirectories; the ESLint flat configuration
    composes the react-native, react-hooks recommended, prettier and react
    recommended configurations in that order; the Prettier configuration
    lists five plugins. *)
Theorem tool_configs_content `{EslintPkgs}
    (h : host) (segs : list jsstring) (app_dir mobile : jsstring)
    (hooks_recommended react_recommended : value) :
  Forall plain_segment (segs ++ [app_dir; mobile]) ->
  __dirname h = abs_path (segs ++ [app_dir; mobile]) ->
  get_path reactHooks ["configs"; "flat"; "recommended"] = Normal hooks_recommended ->
  get_path react ["configs"; "flat"; "recommended"] = Normal react_recommended ->
  monorepoRoot h = abs_path segs /\
  watchFolders (Metro.config h)
  = Some (VArray [ VString (abs_path segs);
                   VString (abs_path segs ++ js "/packages/ui");
                   VString (abs_path segs ++ js "/packages/ts-config") ]) /\
  Eslint.default_export
  = Normal (defineConfig (VArray [ reactNativeConfig; hooks_recommended;
                                   eslintConfigPrettier; react_recommended ])) /\
  exists plugins,
    Prettier.plugins Prettier.default_export = Some (VArray plugins) /\
    length plugins = 5.
Proof.
  intros Hplain Hdir Hhooks Hreact.
  assert (Hroot : monorepoRoot h = abs_path segs).
  { unfold monorepoRoot. rewrite Hdir. now apply resolve_two_up. }
  split; [exact Hroot|]. split; [|split].
  - unfold watchFolders, Metro.config. cbn [prop obj lookup_prop String.eqb].
    now rewrite Hroot.
  - unfold Eslint.default_export, config_array. now rewrite Hhooks, Hreact.
  - eexists. split; reflexivity.
Qed.

Lemma tool_configs_content_witness :
  monorepoRoot Samples.dev_host = js "/home/dev/moim" /\
  watchFolders (Metro.config Samples.dev_host)
  = Some (VArray [ lit "/home/dev/moim";
                   lit "/home/dev/moim/packages/ui";
                   lit "/home/dev/moim/packages/ts-config" ]) /\
  @Eslint.default_export Samples.eslint_pkgs
  = Normal (VArray [ obj [("name", lit "@react-native")];
                     obj [("name", lit "react-hooks/recommended")];
                     obj [("name", lit "config-prettier")];
                     obj [("name", lit "react/recommended")] ]) /\
  exists plugins,
    Prettier.plugins Prettier.default_export = Some (VArray plugins) /\
    length plugins = 5.
Proof.
  apply (@tool_configs_content Samples.eslint_pkgs Samples.dev_host
           [js "home"; js "dev"; js "moim"] (js "apps") (js "mobile")
           (obj [("name", lit "react-hooks/recommended")])
           (obj [("name", lit "react/recommended")])).
  - repeat constructor; vm_compute; try discriminate;
      intros Hin; repeat (destruct Hin as [Hin|Hin]; [discriminate Hin|]); exact Hin.
  - reflexivity.
  - reflexivity.
  - reflexivity.
Defined.

End Configs.

(** ** The validation pipe and the exceptions of the examples *)

Section Exceptions.

Import Zod Backend Mobile Auth.

(** [parse] of a schema built from Zod's constructors keeps the contract. *)
Lemma parse_throws_ZodError_only `{ZodLib} (s : Zod.schema) :
  throws_ZodError_only (as_ZodSchema s).
Proof.
  intros input e. cbn [parse_method as_ZodSchema]. unfold parse, safeParse.
  destruct (outcome_status (parse_at s [] input)); intros Heq;
    inversion Heq; eauto.
Qed.

(** [error.errors] of a [ZodError]: the issues where the library defines
    the alias, [undefined] where it does not. *)
Lemma get_errors_of_ZodError `{ZodLib} (issues : value) :
  get (ZodError issues) "errors"
  = Normal (if errors_alias then issues else VUndefined).
Proof. unfold ZodError. destruct errors_alias; reflexivity. Qed.



(** What [transform] does, whatever [parse] throws. *)
Lemma transform_eq (pipe : ZodValidationPipe) (input : value) :
  transform pipe input =
  match parse_method (schema pipe) input with
  | Normal data => Normal data
  | Throw error =>
      match get error "errors" with
      | Normal errors =>
          Throw (new_BadRequestException
                   (obj [("message", lit "Validation failed"); ("errors", errors)]))
      | Throw e => Throw e
      end
  end.
Proof.
  unfold transform, try_catch.
  destruct (parse_method (schema pipe) input) as [data|error]; cbn; [reflexivity|].
  destruct (get error "errors"); reflexivity.
Qed.

















End Exceptions.

(** ** The data shapes, the tests and the files of the guide *)

Section GuideContents.

Import Zod.

Ltac by_evaluation := refine (bool_decide_unpack _ _); vm_compute; exact I.

(** C4, as stated, fails: the [userSchema] examples have no [password]
    field (the first of them, the mobile one, already lacks it). *)
Lemma userSchema_examples_without_password :
  ~ Forall Stated.user_row_fields Guide.userSchema_examples.
Proof.
  intros Hall. inversion Hall as [|? ? (_ & _ & _ & Hpw & _) _]; subst.
  assert (Hnone : "password" ∉ keys Mobile.userSchema) by by_evaluation.
  exact (Hnone Hpw).
Qed.

(** C4, amended: each of the three [userSchema] examples has the fields
    [id], [name] and [createdAt] and none has a [password] field; the
    mobile and the shared one also have [email], the shared and the merged
    one also [updatedAt]; [password] is a field of the input schemas
    ([createUserSchema] of the backend and of shared-types, and
    [loginSchema]). *)
Theorem userSchema_examples_fields :
  Forall (fun s => "id" ∈ keys s /\ "name" ∈ keys s /\ "createdAt" ∈ keys s /\
                   "password" ∉ keys s)
         Guide.userSchema_examples /\
  "email" ∈ keys Mobile.userSchema /\
  "email" ∈ keys SharedTypes.userSchema /\
  "updatedAt" ∈ keys SharedTypes.userSchema /\
  "updatedAt" ∈ keys Advanced.userSchema /\
  Forall (fun s => "password" ∈ keys s) Guide.input_schemas.
Proof.
  repeat split; repeat constructor; by_evaluation.
Qed.

(** C5, as stated, fails: no test of the supplied snippet mentions an
    [onPress] handler, and none mentions an exception. *)
Lemma no_onPress_or_exception_test :
  ~ (exists L : ZodLib, @Stated.onPress_and_exception_tests L).
Proof.
  intros (L & (t & Hin & Hpress) & _).
  unfold Jest.all_tests, Jest.test_snippets in Hin. cbn in Hin.
  repeat (apply elem_of_cons in Hin as [->|Hin]; [vm_compute in Hpress; discriminate Hpress|]).
  now apply elem_of_nil in Hin.
Qed.

(** C5, amended: the Jest snippet of the supplied source has two tests;
    both call [userSchema.safeParse] and compare [result.success], the
    first expecting a user object to validate and the second expecting an
    invalid email to be rejected; neither exercises an [onPress] handler
    or an exception. *)
Theorem user_suite_tests `{ZodLib} (userSchema : Zod.schema) :
  map (fun t => Jest.passes t userSchema) Jest.all_tests
  = [ success (safeParse userSchema Jest.valid_user);
      negb (success (safeParse userSchema Jest.invalid_email_user)) ] /\
  Forall (fun t => Jest.exercises_onPress t = false /\
                   Jest.exercises_exception t = false) Jest.all_tests.
Proof.
  split.
  - cbn. unfold Jest.expect_toBe.
    destruct (success _), (success _); reflexivity.
  - repeat constructor.
Qed.

(** Three documents are among the supplied files. *)
Lemma documents_eq :
  Repository.documents
  = [ {| Repository.file_name := Some "README.md";
         Repository.file_content := Repository.document "moim" |};
      {| Repository.file_name := Some "ZOD_GUIDE.md";
         Repository.file_content := Repository.document "Zod 사용 가이드" |};
      {| Repository.file_name := None;
         Repository.file_content := Repository.document "환경 변수 설정 가이드" |} ].
Proof. reflexivity. Qed.

(** C2, as stated, fails: six different documents cannot be among the
    supplied files, which hold three. *)
Lemma no_six_documents : ~ Stated.six_documents_present.
Proof.
  intros (a1 & a2 & a3 & r & z & e & Hnodup & Hin & _).
  assert (Hsub : [a1; a2; a3; r; z; e] ⊆ Repository.documents).
  { intros f Hf. rewrite Forall_forall in Hin. now apply Hin. }
  pose proof (submseteq_length _ _ (NoDup_submseteq _ _ Hnodup (fun f Hf => Hsub f Hf)))
    as Hlen.
  rewrite documents_eq in Hlen. cbn in Hlen. lia.
Qed.

(** C2, amended: of the seven supplied files three are documents with no
    runtime behaviour (README.md, ZOD_GUIDE.md and one
    environment-variable guide) and four are configuration modules; no
    file named AGENTS.md is among them. *)
Theorem supplied_documents :
  length Repository.supplied_files = 7 /\
  (exists readme zod_guide env_guide,
     Repository.documents = [readme; zod_guide; env_guide] /\
     Repository.named "README.md" readme = true /\
     Repository.named "ZOD_GUIDE.md" zod_guide = true /\
     Repository.headed "환경 변수 설정 가이드" env_guide = true) /\
  length (filter (fun f => Repository.is_document f = false) Repository.supplied_files) = 4 /\
  Forall (fun f => Repository.named "AGENTS.md" f = false) Repository.supplied_files.
Proof.
  split; [reflexivity|]. split; [|split].
  - do 3 eexists. rewrite documents_eq. repeat split; reflexivity.
  - reflexivity.
  - repeat constructor.
Qed.

(** C6: the guide holds a [ZodValidationPipe] class (built from a schema,
    its [transform] hands back what the schema's [parse] returns), call
    sites of [UsersService.create] (both controller methods pass their DTO
    to it, and the POST route reaches it through the pipe), and a [Button]
    in the signup screen (titled "회원가입", pressing it submits the
    form). *)
Theorem guide_examples_present `{ZodLib} `{Mobile.ReactHookForm}
    (s : ZodSchema) (controller : Backend.UsersController) (input dto : value) :
  (forall data, parse_method s input = Normal data ->
     Backend.transform {| Backend.schema := s |} input = Normal data) /\
  Backend.UsersController_create controller dto
  = Backend.create (Backend.usersService controller) dto /\
  Backend.UsersController_createAlternative controller dto
  = Backend.create (Backend.usersService controller) dto /\
  (forall data, parse Backend.createUserSchema input = Normal data ->
     Backend.post_users controller input
     = Backend.create (Backend.usersService controller) data) /\
  Mobile.Button (js "회원가입")
    (Mobile.handleSubmit (Mobile.useForm (Mobile.zodResolver Mobile.signupSchema))
       Mobile.onSubmit)
  ∈ Mobile.children_of Mobile.SignupScreen.
Proof.
  split; [|split; [|split; [|split]]].
  - intros data Hp. rewrite transform_eq. cbn. now rewrite Hp.
  - reflexivity.
  - reflexivity.
  - intros data Hp. unfold Backend.post_users. rewrite transform_eq.
    cbn [Backend.schema parse_method as_ZodSchema]. rewrite Hp. reflexivity.
  - cbn. rewrite !elem_of_cons. right. right. now left.
Qed.

Lemma guide_examples_present_witness :
  Backend.transform Samples.dto_pipe Samples.good_body = Normal Samples.good_body /\
  @Backend.post_users Samples.zod_lib {| Backend.usersService := Samples.echo_service |}
    Samples.good_body
  = Normal Samples.good_body /\
  @Mobile.Button Samples.react_hook_form (js "회원가입") tt
  ∈ @Mobile.children_of Samples.react_hook_form (@Mobile.SignupScreen Samples.react_hook_form).
Proof.
  pose proof (@guide_examples_present Samples.zod_lib Samples.react_hook_form
                (@as_ZodSchema Samples.zod_lib Backend.createUserSchema)
                {| Backend.usersService := Samples.echo_service |}
                Samples.good_body Samples.good_body)
    as (Hpipe & _ & _ & Hpost & Hbutton).
  split; [|split].
  - apply Hpipe. vm_compute. reflexivity.
  - rewrite (Hpost Samples.good_body); [reflexivity|]. vm_compute. reflexivity.
  - exact Hbutton.
Defined.

(** X3: against each [userSchema] of the guide the first test of the Jest
    snippet fails, since the object it validates has no [createdAt]; the
    second test passes. *)
Theorem user_suite_against_userSchema_examples `{ZodLib} :
  Forall (fun userSchema =>
            map (fun t => Jest.passes t userSchema) Jest.all_tests = [false; true])
         Guide.userSchema_examples.
Proof.
  unfold Guide.userSchema_examples.
  destruct H as [email_test uuid_test datetime_test messages instances alias].
  constructor; [|constructor; [|constructor; [|constructor]]]; vm_compute;
    repeat match goal with
           | |- context [email_test ?s] => destruct (email_test s)
           | |- context [uuid_test ?s] => destruct (uuid_test s)
           end; reflexivity.
Qed.

End GuideContents.

(** ** The backend DTO schema *)

Section PasswordPattern.

Import RegExp.
Local Open Scope N_scope.

Lemma lower_is_dot (c : N) : lower c = true -> dot c = true.
Proof.
  unfold lower, dot, line_terminator, in_range.
  rewrite andb_true_iff, !N.leb_le, negb_true_iff, !orb_false_iff, !N.eqb_neq. lia.
Qed.

Lemma upper_is_dot (c : N) : upper c = true -> dot c = true.
Proof.
  unfold upper, dot, line_terminator, in_range.
  rewrite andb_true_iff, !N.leb_le, negb_true_iff, !orb_false_iff, !N.eqb_neq. lia.
Qed.

Lemma digit_is_dot (c : N) : digit c = true -> dot c = true.
Proof.
  unfold digit, dot, line_terminator, in_range.
  rewrite andb_true_iff, !N.leb_le, negb_true_iff, !orb_false_iff, !N.eqb_neq. lia.
Qed.

(** [.*[c]] matches at index 0 exactly when the first line has a code
    unit of the class. *)
Lemma star_dot_then_class (p : N -> bool) (s : jsstring) :
  (forall c, p c = true -> dot c = true) ->
  star dot s (fun rest => class p rest (fun _ => true)) = existsb p (first_line s).
Proof.
  intros Hp. induction s as [|c rest IH]; [reflexivity|].
  cbn [star first_line class]. rewrite IH.
  destruct (dot c) eqn:Hdot; cbn [existsb andb orb].
  - rewrite andb_true_r. apply orb_comm.
  - destruct (p c) eqn:Hpc; [|reflexivity].
    rewrite (Hp c Hpc) in Hdot. discriminate Hdot.
Qed.

Lemma password_regex_eq (s : jsstring) :
  Backend.password_regex s
  = existsb lower (first_line s) && existsb upper (first_line s)
    && existsb digit (first_line s).
Proof.
  unfold Backend.password_regex, test_at_start, Backend.password_pattern, seq, lookahead.
  rewrite (star_dot_then_class lower s lower_is_dot).
  rewrite (star_dot_then_class upper s upper_is_dot).
  rewrite (star_dot_then_class digit s digit_is_dot).
  now rewrite andb_true_r, andb_assoc.
Qed.

(** Without a line terminator the first line is the whole string. *)
Lemma first_line_all (s : jsstring) :
  forallb dot s = true -> first_line s = s.
Proof.
  induction s as [|c rest IH]; [reflexivity|]. cbn.
  rewrite andb_true_iff. intros [-> Hrest]. now rewrite IH.
Qed.

End PasswordPattern.

Section DtoSchema.

Import Zod Backend.

Context `{ZodLib}.

Lemma accepts_iff_valid (s : Zod.schema) (input : value) :
  Stated.accepts s input <-> outcome_status (parse_at s [] input) = valid.
Proof.
  unfold Stated.accepts, parse, safeParse.
  destruct (outcome_status (parse_at s [] input)); split;
    try discriminate; eauto; intros [data Hd]; discriminate Hd.
Qed.

Lemma worse_valid (a b : status) : worse a b = valid <-> a = valid /\ b = valid.
Proof. destruct a, b; cbn; intuition discriminate. Qed.

Lemma checked_valid (v : value) (issues : list issue) :
  outcome_status (checked v issues) = valid <-> issues = [].
Proof. destruct issues; cbn; intuition discriminate. Qed.

Lemma failed_string_checks_nil (checks : list string_check) (s : jsstring)
    (path : list string) :
  failed_string_checks checks s path = [] <->
  forallb (fun c => string_check_passes c s) checks = true.
Proof.
  unfold failed_string_checks. induction checks as [|c checks IH]; cbn.
  - intuition.
  - destruct (string_check_passes c s); cbn; [exact IH | intuition discriminate].
Qed.

Lemma failed_number_checks_nil (checks : list number_check) (n : number)
    (path : list string) :
  failed_number_checks checks n path = [] <->
  forallb (fun c => number_check_passes c n) checks = true.
Proof.
  unfold failed_number_checks. induction checks as [|c checks IH]; cbn.
  - intuition.
  - destruct (number_check_passes c n); cbn; [exact IH | intuition discriminate].
Qed.

Lemma string_valid (checks : list string_check) (path : list string) (v : value) :
  outcome_status (parse_at (ZString checks) path v) = valid <->
  exists s, v = VString s /\ forallb (fun c => string_check_passes c s) checks = true.
Proof.
  destruct v; cbn [parse_at];
    try (split; [discriminate | intros (s0 & Hs & _); discriminate Hs]).
  rewrite checked_valid, failed_string_checks_nil. split.
  - intros Hall. now exists s.
  - intros (s0 & Hs & Hall). now inversion Hs; subst.
Qed.

Lemma number_valid (checks : list number_check) (path : list string) (v : value) :
  outcome_status (parse_at (ZNumber checks) path v) = valid <->
  exists n, v = VNumber n /\ n <> NaN /\
            forallb (fun c => number_check_passes c n) checks = true.
Proof.
  destruct v as [| | |n| | |]; cbn [parse_at];
    try (split; [discriminate | intros (n0 & Hn & _); discriminate Hn]).
  destruct n as [|neg|q].
  - split; [discriminate|]. intros (n0 & Hn & Hnan & _). now inversion Hn; subst.
  - rewrite checked_valid, failed_number_checks_nil. split.
    + intros Hall. exists (Infinity neg). now repeat split.
    + intros (n0 & Hn & _ & Hall). now inversion Hn; subst.
  - rewrite checked_valid, failed_number_checks_nil. split.
    + intros Hall. exists (Finite q). now repeat split.
    + intros (n0 & Hn & _ & Hall). now inversion Hn; subst.
Qed.

Lemma optional_valid (inner : Zod.schema) (path : list string) (v : value) :
  outcome_status (parse_at (ZOptional inner) path v) = valid <->
  v = VUndefined \/ outcome_status (parse_at inner path v) = valid.
Proof.
  destruct v; cbn [parse_at ok outcome_status];
    try (split; [now right | now intros [Hu|Hv]; [discriminate Hu|]]).
  split; [now left | reflexivity].
Qed.

Lemma field_is_string (k : string) (props : list (string * value)) (s : jsstring) :
  option.default VUndefined (lookup_prop k props) = VString s <->
  lookup_prop k props = Some (VString s).
Proof.
  destruct (lookup_prop k props) as [v|]; cbn; split; congruence.
Qed.

Lemma field_is_number (k : string) (props : list (string * value)) (n : number) :
  option.default VUndefined (lookup_prop k props) = VNumber n <->
  lookup_prop k props = Some (VNumber n).
Proof.
  destruct (lookup_prop k props) as [v|]; cbn; split; congruence.
Qed.

Lemma field_is_undefined (k : string) (props : list (string * value)) :
  option.default VUndefined (lookup_prop k props) = VUndefined <->
  lookup_prop k props = None \/ lookup_prop k props = Some VUndefined.
Proof.
  destruct (lookup_prop k props) as [v|]; cbn; split.
  - intros ->. now right.
  - intros [Hx|Hx]; congruence.
  - now left.
  - reflexivity.
Qed.

End DtoSchema.

Section DtoAcceptance.

Import Zod Backend.

Context `{ZodLib}.

Lemma integer_in_range (q : Q) :
  is_integer (Finite q)
  && (number_le (Finite (inject_Z 0)) (Finite q)
      && (number_le (Finite q) (Finite (inject_Z 150)) && true)) = true <->
  exists z, Qeq q (inject_Z z) /\ (0 <= z <= 150)%Z.
Proof.
  cbn [is_integer number_le]. rewrite !andb_true_iff, Z.eqb_eq, !Qle_bool_iff. split.
  - intros (Hmod & Hlo & Hhi & _).
    exists (Qnum q / Zpos (Qden q))%Z.
    assert (Hq : Qeq q (inject_Z (Qnum q / Zpos (Qden q)))).
    { unfold Qeq. cbn. rewrite Z.mul_1_r.
      rewrite (Z.mul_comm (Qnum q / Z.pos (Qden q))).
      now apply Z.div_exact. }
    split; [exact Hq|]. rewrite Hq in Hlo, Hhi.
    now rewrite <- !Zle_Qle in *.
  - intros (z & Hq & Hlo & Hhi). repeat split.
    + unfold Qeq in Hq. cbn in Hq. rewrite Z.mul_1_r in Hq. rewrite Hq.
      now apply Z.mod_mul.
    + rewrite Hq. now rewrite <- Zle_Qle.
    + rewrite Hq. now rewrite <- Zle_Qle.
Qed.

Lemma true_and (P : Prop) : true = true /\ P <-> P.
Proof. tauto. Qed.

(** What [z.object] must take the input for, and what the four fields of
    an object must be, for the schema to find it valid. *)
Lemma createUserSchema_on_object (class : string) (props : list (string * value)) :
  outcome_status (parse_at createUserSchema [] (VObject class props)) = valid <->
  is_object_class class = true /\
  (exists e, lookup_prop "email" props = Some (VString e) /\ is_email e = true) /\
  (exists n, lookup_prop "name" props = Some (VString n) /\
             Nat.leb 2 (length n) && (Nat.leb (length n) 50 && true) = true) /\
  (exists p, lookup_prop "password" props = Some (VString p) /\
             Nat.leb 8 (length p) && (password_regex p && true) = true) /\
  (Stated.age_omitted props \/
   exists n, lookup_prop "age" props = Some (VNumber n) /\ n <> NaN /\
             is_integer n
             && (number_le (Finite (inject_Z 0)) n
                 && (number_le n (Finite (inject_Z 150)) && true)) = true).
Proof.
  cbn [createUserSchema z_object parse_at].
  destruct (is_object_class class);
    [rewrite true_and | split; [discriminate | intros [Hx _]; discriminate Hx]].
  cbn [merge_object outcome_status fold_right snd].
  rewrite !worse_valid.
  unfold email, min, max, regex, optional, number_max, number_min, int,
    z_string, z_number, add_string_check, add_number_check.
  cbn [app].
  rewrite !string_valid, optional_valid, number_valid.
  cbn [forallb string_check_passes number_check_passes].
  setoid_rewrite field_is_string. setoid_rewrite field_is_number.
  rewrite field_is_undefined. unfold Stated.age_omitted.
  split.
  - intros ((e & He & Hok) & Hname & Hpw & Hage & _).
    rewrite andb_true_r in Hok. eauto 10.
  - intros ((e & He & Hok) & Hname & Hpw & Hage).
    repeat split; try assumption. exists e. now rewrite andb_true_r.
Qed.

(** The inputs [createUserSchema] finds valid: what [z.object] takes for
    an object and, as the statement has it, with the four fields, but the
    lowercase letter, the uppercase letter and the digit are looked for in
    the first line of the password. *)
Lemma createUserSchema_valid_iff (input : value) :
  outcome_status (parse_at createUserSchema [] input) = valid <->
  parsed_as_object input = true /\
  Stated.createUser_acceptable_in RegExp.first_line input.
Proof.
  unfold Stated.createUser_acceptable_in.
  destruct input as [| | | | | |class props];
    try (split; [discriminate | intros [Hx _]; discriminate Hx]).
  rewrite createUserSchema_on_object. cbn [parsed_as_object].
  apply and_iff_compat_l. split.
  - intros (Hemail & (n & Hn & Hlen) & (p & Hp & Hpw) & Hage).
    exists class, props. split; [reflexivity|]. split; [exact Hemail|].
    rewrite !andb_true_iff, !Nat.leb_le in Hlen.
    split; [exists n; intuition|].
    rewrite password_regex_eq, !andb_true_iff, Nat.leb_le in Hpw.
    split; [exists p; intuition|].
    destruct Hage as [Hage|(num & Hnum & Hnan & Hchecks)]; [now left|right].
    destruct num as [|neg|q]; [congruence | discriminate Hchecks |].
    apply integer_in_range in Hchecks as (z & Hq & Hz). now exists q, z.
  - intros (c & ps & Hobj & Hemail & (n & Hn & Hlo & Hhi) &
            (p & Hp & Hlen & Hl & Hu & Hd) & Hage).
    inversion Hobj; subst c ps. split; [exact Hemail|].
    split.
    { exists n. split; [exact Hn|].
      rewrite !andb_true_iff, !Nat.leb_le. intuition. }
    split.
    { exists p. split; [exact Hp|].
      rewrite password_regex_eq, !andb_true_iff, Nat.leb_le. intuition. }
    destruct Hage as [Hage|(q & z & Hq & Heq & Hz)]; [now left|right].
    exists (Finite q). split; [exact Hq|]. split; [discriminate|].
    apply integer_in_range. now exists z.
Qed.

(** X1: [createUserSchema] accepts an input exactly when it is an object
    literal, or an instance of a class that the library parses as an
    object, whose email passes Zod's email test, whose name has 2 to 50
    code units, whose password has at least 8 code units and, before its
    first line terminator, a lowercase letter, an uppercase letter and a
    digit, and whose age is omitted or an integer from 0 to 150. *)
Theorem createUserSchema_accepts_iff (input : value) :
  Stated.accepts createUserSchema input <->
  parsed_as_object input = true /\
  Stated.createUser_acceptable_in RegExp.first_line input.
Proof. rewrite accepts_iff_valid. apply createUserSchema_valid_iff. Qed.

(** X2: on objects that [z.object] takes for objects and whose password,
    if it is a string, has no line terminator, [createUserSchema] accepts
    exactly what the statement says. *)
Theorem createUserSchema_accepts_single_line (class : string)
    (props : list (string * value)) :
  is_object_class class = true ->
  (forall p, lookup_prop "password" props = Some (VString p) ->
             forallb RegExp.dot p = true) ->
  Stated.accepts createUserSchema (VObject class props) <->
  Stated.createUser_acceptable (VObject class props).
Proof.
  intros Hclass Hline. rewrite accepts_iff_valid, createUserSchema_valid_iff.
  cbn [parsed_as_object]. rewrite Hclass, true_and.
  unfold Stated.createUser_acceptable, Stated.createUser_acceptable_in.
  split; intros (c & ps & Hobj & Hemail & Hname & (p & Hp & Hpw) & Hage);
    inversion Hobj; subst c ps;
    exists class, props; (split; [reflexivity|]);
    (split; [exact Hemail|]); (split; [exact Hname|]); (split; [|exact Hage]);
    exists p; (split; [exact Hp|]).
  - now rewrite (first_line_all p (Hline p Hp)) in Hpw.
  - now rewrite (first_line_all p (Hline p Hp)).
Qed.

End DtoAcceptance.

Section DtoFailingInput.

Import Zod Backend.

Lemma createUserSchema_accepts_single_line_witness :
  @Stated.accepts Samples.zod_lib createUserSchema Samples.good_body <->
  @Stated.createUser_acceptable Samples.zod_lib Samples.good_body.
Proof.
  apply (@createUserSchema_accepts_single_line Samples.zod_lib "Object"
           [ ("email", lit "test@example.com");
             ("name", lit "Test User");
             ("password", lit "Passw0rdPassw0rd") ]).
  - reflexivity.
  - intros p Hp. vm_compute in Hp. inversion Hp; subst p. vm_compute. reflexivity.
Defined.

Lemma createUserSchema_accepts_iff_witness :
  ~ @Stated.accepts Samples.zod_lib createUserSchema Cases.date_body.
Proof.
  intros Haccepts.
  apply (proj1 (@createUserSchema_accepts_iff Samples.zod_lib Cases.date_body))
    in Haccepts as [Hobject _].
  vm_compute in Hobject. discriminate Hobject.
Defined.

(** C10, at the failing input: a body whose password is a line feed
    followed by "Abcdefg1" (nine code units, with a lowercase letter, an
    uppercase letter and a digit).  The statement accepts it as soon as
    the email passes Zod's test; [createUserSchema] rejects it, since
    [.] in its pattern stops at the line feed; [passwordSchema], which
    states the same three requirements with one search each, accepts the
    password. *)
Theorem createUserSchema_rejects_newline_password (L : ZodLib) :
  ~ Stated.accepts createUserSchema Samples.newline_body /\
  (is_email (js "test@example.com") = true ->
     Stated.createUser_acceptable Samples.newline_body) /\
  password_regex Samples.newline_password = false /\
  Stated.accepts Advanced.passwordSchema (VString Samples.newline_password).
Proof.
  split; [|split; [|split]].
  - rewrite accepts_iff_valid, createUserSchema_valid_iff.
    intros (_ & c & ps & Hobj & _ & _ & (p & Hp & _ & Hlower & _) & _).
    inversion Hobj; subst c ps. vm_compute in Hp. inversion Hp; subst p.
    vm_compute in Hlower. discriminate Hlower.
  - intros Hmail. exists "Object". eexists. split; [reflexivity|].
    split; [eexists; split; [reflexivity | exact Hmail]|].
    split; [eexists; split; [reflexivity | cbn; lia]|].
    split; [eexists; split; [reflexivity | repeat split; cbn; lia]|].
    left. now left.
  - reflexivity.
  - eexists. vm_compute. reflexivity.
Qed.

End DtoFailingInput.

(** ** Parsing: status, issues and values *)

Section ZodFacts.

Import Zod.

Context `{ZodLib}.

(** Induction on schemas, through the shapes of object schemas. *)
Lemma schema_nested_ind (P : Zod.schema -> Prop) :
  (forall checks, P (ZString checks)) ->
  (forall checks, P (ZNumber checks)) ->
  P ZBoolean ->
  (forall options, P (ZEnum options)) ->
  (forall shape, Forall (fun ks => P (snd ks)) shape -> P (ZObject shape)) ->
  (forall inner, P inner -> P (ZOptional inner)) ->
  (forall inner d, P inner -> P (ZDefault inner d)) ->
  (forall inner f, P inner -> P (ZTransform inner f)) ->
  (forall first second, P first -> P second -> P (ZPipe first second)) ->
  (forall inner check message path, P inner -> P (ZRefine inner check message path)) ->
  forall s, P s.
Proof.
  intros HS HN HB HE HO HOpt HD HT HP HR.
  fix IH 1. intros [checks|checks| |options|shape|inner|inner d|inner f|a b|inner c m p].
  - apply HS.
  - apply HN.
  - apply HB.
  - apply HE.
  - apply HO. induction shape as [|[k child] rest IHrest]; constructor.
    + apply IH.
    + exact IHrest.
  - apply HOpt, IH.
  - apply HD, IH.
  - apply HT, IH.
  - apply HP; apply IH.
  - apply HR, IH.
Qed.

Lemma invalid_not_valid (code : string) (path : list string) (input : value) :
  outcome_status (invalid code path input) = valid <->
  outcome_issues (invalid code path input) = [].
Proof. cbn. split; discriminate. Qed.

Lemma checked_no_issues (v : value) (issues : list issue) :
  outcome_status (checked v issues) = valid <->
  outcome_issues (checked v issues) = [].
Proof. destruct issues; cbn; split; congruence. Qed.

Lemma merge_object_no_issues (fields : list parsed_field) :
  Forall (fun f : parsed_field =>
            outcome_status (snd f) = valid <-> outcome_issues (snd f) = []) fields ->
  outcome_status (merge_object fields) = valid <->
  outcome_issues (merge_object fields) = [].
Proof.
  cbn [merge_object outcome_status outcome_issues].
  induction 1 as [|f rest Hf _ IH]; cbn; [tauto|].
  rewrite worse_valid, IH, Hf.
  split.
  - intros [-> ->]. reflexivity.
  - intros Happ. now apply app_eq_nil in Happ.
Qed.

(** A parse is valid exactly when it reports no issue. *)
Lemma valid_iff_no_issues (s : Zod.schema) :
  forall path input,
    outcome_status (parse_at s path input) = valid <->
    outcome_issues (parse_at s path input) = [].
Proof.
  induction s as [checks|checks| |options|shape IHshape|inner IH|inner d IH
                 |inner f IH|a b IHa IHb|inner c m p IH] using schema_nested_ind;
    intros path input.
  - destruct input; cbn [parse_at];
      first [apply invalid_not_valid | apply checked_no_issues].
  - destruct input as [| | |[|neg|q]| | |]; cbn [parse_at];
      first [apply invalid_not_valid | apply checked_no_issues].
  - destruct input; cbn [parse_at]; first [apply invalid_not_valid | cbn; tauto].
  - destruct input; cbn [parse_at]; try apply invalid_not_valid.
    case_bool_decide; [cbn; tauto | apply invalid_not_valid].
  - destruct input as [| | | | | |class props]; cbn [parse_at];
      try apply invalid_not_valid.
    destruct (is_object_class class); [|apply invalid_not_valid].
    apply merge_object_no_issues.
    induction IHshape as [|[k child] rest Hchild _ IHrest]; constructor.
    + apply Hchild.
    + exact IHrest.
  - destruct input; cbn [parse_at]; first [apply IH | cbn; tauto].
  - destruct input; cbn [parse_at]; apply IH.
  - cbn [parse_at].
    destruct (outcome_status (parse_at inner path input)) eqn:Hst;
      [cbn; tauto | |]; rewrite <- IH, Hst; split; discriminate.
  - cbn [parse_at].
    destruct (outcome_status (parse_at a path input)) eqn:Hst;
      [apply IHb | |]; rewrite <- IHa, Hst; split; discriminate.
  - cbn [parse_at].
    destruct (outcome_status (parse_at inner path input)) eqn:Hst.
    + destruct (c _); [now rewrite <- IH, Hst|].
      cbn. split; [discriminate|]. intros Happ.
      apply app_eq_nil in Happ as [_ Hnil]. discriminate Hnil.
    + destruct (c _); [now rewrite <- IH, Hst|].
      cbn. split; [discriminate|]. intros Happ.
      apply app_eq_nil in Happ as [_ Hnil]. discriminate Hnil.
    + now rewrite <- IH, Hst.
Qed.

End ZodFacts.

Section ZodValues.

Import Zod.

Context `{ZodLib}.

Lemma string_value (checks : list string_check) (path : list string) (v : value) :
  outcome_value (parse_at (ZString checks) path v) = v.
Proof. destruct v; reflexivity. Qed.

Lemma number_value (checks : list number_check) (path : list string) (v : value) :
  outcome_value (parse_at (ZNumber checks) path v) = v.
Proof. destruct v as [| | |[|neg|q]| | |]; reflexivity. Qed.

Lemma enum_valid (options : list jsstring) (path : list string) (v : value) :
  outcome_status (parse_at (ZEnum options) path v) = valid <->
  exists s, v = VString s /\ s ∈ options.
Proof.
  destruct v; cbn [parse_at];
    try (split; [discriminate | intros (s0 & Hs & _); discriminate Hs]).
  case_bool_decide as Hin; cbn; split.
  - intros _. now exists s.
  - reflexivity.
  - discriminate.
  - intros (s0 & Hs & Hin'). inversion Hs; subst. contradiction.
Qed.

Lemma enum_value (options : list jsstring) (path : list string) (v : value) :
  outcome_value (parse_at (ZEnum options) path v) = v.
Proof. destruct v; cbn [parse_at]; try reflexivity. now case_bool_decide. Qed.

Lemma transform_valid (inner : Zod.schema) (f : value -> value)
    (path : list string) (v : value) :
  outcome_status (parse_at (ZTransform inner f) path v) = valid <->
  outcome_status (parse_at inner path v) = valid.
Proof.
  cbn [parse_at]. destruct (outcome_status (parse_at inner path v)) eqn:Hst;
    cbn; rewrite ?Hst; tauto.
Qed.

Lemma transform_value (inner : Zod.schema) (f : value -> value)
    (path : list string) (v : value) :
  outcome_status (parse_at inner path v) = valid ->
  outcome_value (parse_at (ZTransform inner f) path v)
  = f (outcome_value (parse_at inner path v)).
Proof. intros Hst. cbn [parse_at]. now rewrite Hst. Qed.

Lemma pipe_valid (first second : Zod.schema) (path : list string) (v : value) :
  outcome_status (parse_at (ZPipe first second) path v) = valid <->
  outcome_status (parse_at first path v) = valid /\
  outcome_status (parse_at second path (outcome_value (parse_at first path v))) = valid.
Proof.
  cbn [parse_at]. destruct (outcome_status (parse_at first path v)) eqn:Hst;
    rewrite ?Hst; intuition discriminate.
Qed.

Lemma pipe_value (first second : Zod.schema) (path : list string) (v : value) :
  outcome_status (parse_at first path v) = valid ->
  outcome_value (parse_at (ZPipe first second) path v)
  = outcome_value (parse_at second path (outcome_value (parse_at first path v))).
Proof. intros Hst. cbn [parse_at]. now rewrite Hst. Qed.

Lemma refine_valid (inner : Zod.schema) (check : value -> bool) (message : jsstring)
    (at_path path : list string) (v : value) :
  outcome_status (parse_at (ZRefine inner check message at_path) path v) = valid <->
  outcome_status (parse_at inner path v) = valid /\
  check (outcome_value (parse_at inner path v)) = true.
Proof.
  cbn [parse_at]. destruct (outcome_status (parse_at inner path v)) eqn:Hst;
    destruct (check (outcome_value (parse_at inner path v))); cbn;
    rewrite ?Hst; intuition discriminate.
Qed.

Lemma refine_value (inner : Zod.schema) (check : value -> bool) (message : jsstring)
    (at_path path : list string) (v : value) :
  outcome_value (parse_at (ZRefine inner check message at_path) path v)
  = outcome_value (parse_at inner path v).
Proof.
  cbn [parse_at]. destruct (outcome_status (parse_at inner path v));
    destruct (check (outcome_value (parse_at inner path v))); reflexivity.
Qed.

(** [parse] returns the value of a valid outcome. *)
Lemma parse_Normal (s : Zod.schema) (input data : value) :
  parse s input = Normal data <->
  outcome_status (parse_at s [] input) = valid /\
  data = outcome_value (parse_at s [] input).
Proof.
  unfold parse, safeParse.
  destruct (outcome_status (parse_at s [] input)); split;
    try (intros Hx; inversion Hx; auto; fail);
    try (intros [Hx _]; discriminate Hx).
  intros [_ ->]. reflexivity.
Qed.

Lemma parse_Throw (s : Zod.schema) (input : value) :
  outcome_status (parse_at s [] input) <> valid ->
  exists first rest,
    parse s input = Throw (ZodError (VArray (first :: rest))).
Proof.
  intros Hst. unfold parse, safeParse.
  destruct (outcome_issues (parse_at s [] input)) as [|i rest] eqn:Hissues.
  - apply valid_iff_no_issues in Hissues. contradiction.
  - destruct (outcome_status (parse_at s [] input)); [contradiction| |];
      exists (issue_value i), (map issue_value rest); reflexivity.
Qed.

End ZodValues.

Section PipeRejections.

Import Zod Backend.



End PipeRejections.

(** ** The POST /users route *)

Section PostUsers.

Import Zod Backend.

Context `{ZodLib}.

Lemma optional_defined (inner : Zod.schema) (path : list string) (v : value) :
  v <> VUndefined ->
  parse_at (ZOptional inner) path v = parse_at inner path v.
Proof. destruct v; [contradiction|..]; reflexivity. Qed.

(** The DTO the schema makes of a valid object: its email, name and
    password, and its age when the object has one. *)
Lemma createUserSchema_value (class : string) (props : list (string * value))
    (e n p : jsstring) :
  is_object_class class = true ->
  lookup_prop "email" props = Some (VString e) ->
  lookup_prop "name" props = Some (VString n) ->
  lookup_prop "password" props = Some (VString p) ->
  (Stated.age_omitted props \/ exists a, lookup_prop "age" props = Some (VNumber a)) ->
  outcome_value (parse_at createUserSchema [] (VObject class props))
  = obj ([("email", VString e); ("name", VString n); ("password", VString p)]
         ++ match lookup_prop "age" props with
            | Some a => [("age", a)]
            | None => []
            end).
Proof.
  intros Hclass He Hn Hp Hage.
  cbn [createUserSchema z_object parse_at]. rewrite Hclass.
  unfold email, min, max, regex, optional, number_max, number_min, int,
    z_string, z_number, add_string_check, add_number_check.
  cbn [app merge_object outcome_value omap list_omap snd fst].
  rewrite !string_value. unfold has_prop. rewrite He, Hn, Hp.
  cbn [option.default].
  destruct Hage as [[Ha|Ha]|[a Ha]]; rewrite Ha.
  - reflexivity.
  - reflexivity.
  - cbn [option.default]. rewrite optional_defined by discriminate.
    rewrite number_value. reflexivity.
Qed.

(** X6: when the body passes the DTO schema, the route calls
    [usersService.create] with the parsed DTO, which has no field but
    [email], [name], [password] and [age], each with the value the body
    gave it; a field the schema does not know never reaches the
    service. *)
Theorem post_users_passes_known_fields_only
    (controller : UsersController) (body data : value) :
  parse createUserSchema body = Normal data ->
  post_users controller body = create (usersService controller) data /\
  (forall k v, prop k data = Some v ->
     k ∈ ["email"; "name"; "password"; "age"] /\ prop k body = Some v) /\
  (forall k, k ∈ ["email"; "name"; "password"] -> prop k data = prop k body).
Proof.
  intros Hparse.
  split.
  { unfold post_users. rewrite transform_eq.
    cbn [schema parse_method as_ZodSchema]. now rewrite Hparse. }
  apply parse_Normal in Hparse as [Hvalid ->].
  destruct body as [| | | | | |class props]; try discriminate Hvalid.
  pose proof Hvalid as Hfields.
  apply createUserSchema_on_object in Hfields
    as (Hclass & (e & He & _) & (n & Hn & _) & (p & Hp & _) & Hage).
  rewrite (createUserSchema_value class props e n p Hclass He Hn Hp)
    by (destruct Hage as [Hage|(a & Ha & _)]; [now left | right; now exists a]).
  cbn [prop obj app lookup_prop]. split.
  - intros k v.
    destruct (String.eqb_spec "email" k) as [<-|_];
      [intros [= <-]; split; [(rewrite !elem_of_cons; auto 10) | exact He]|].
    destruct (String.eqb_spec "name" k) as [<-|_];
      [intros [= <-]; split; [(rewrite !elem_of_cons; auto 10) | exact Hn]|].
    destruct (String.eqb_spec "password" k) as [<-|_];
      [intros [= <-]; split; [(rewrite !elem_of_cons; auto 10) | exact Hp]|].
    destruct (lookup_prop "age" props) as [a|] eqn:Ha; cbn [lookup_prop];
      [|discriminate].
    destruct (String.eqb_spec "age" k) as [<-|_]; [|discriminate].
    intros [= <-]. split; [(rewrite !elem_of_cons; auto 10) | exact Ha].
  - intros k Hk. rewrite !elem_of_cons in Hk.
    destruct Hk as [->|[->|[->|Hk]]]; [now rewrite He | now rewrite Hn
                                      | now rewrite Hp | now apply elem_of_nil in Hk].
Qed.

(** X7: when the body does not pass the DTO schema, the route answers
    with a [BadRequestException] that is the same for every controller and
    service: [usersService.create] is not reached. *)
Theorem post_users_rejected_body (body : value) :
  ~ Stated.accepts createUserSchema body ->
  exists e,
    class_of e = Some "BadRequestException" /\
    forall controller : UsersController, post_users controller body = Throw e.
Proof.
  rewrite accepts_iff_valid. intros Hinvalid.
  destruct (parse_Throw createUserSchema body Hinvalid) as (first & rest & Hthrow).
  eexists. split; [|intros controller; unfold post_users; rewrite transform_eq;
                    cbn [schema parse_method as_ZodSchema]; rewrite Hthrow;
                    rewrite get_errors_of_ZodError; reflexivity].
  reflexivity.
Qed.

End PostUsers.

Section PostUsersWitness.

Import Zod Backend.

Lemma post_users_passes_known_fields_only_witness :
  @post_users Samples.zod_lib {| usersService := Samples.echo_service |} Cases.admin_body
  = Normal Samples.good_body.
Proof.
  apply (proj1 (@post_users_passes_known_fields_only Samples.zod_lib
                  {| usersService := Samples.echo_service |}
                  Cases.admin_body Samples.good_body eq_refl)).
Defined.

Lemma post_users_rejected_body_witness :
  exists e,
    class_of e = Some "BadRequestException" /\
    forall controller : UsersController,
      @post_users Samples.zod_lib controller VUndefined = Throw e.
Proof.
  apply (@post_users_rejected_body Samples.zod_lib VUndefined).
  intros [data Hdata]. vm_compute in Hdata. discriminate Hdata.
Defined.

End PostUsersWitness.

(** ** Object schemas *)

Section ObjectFacts.

Import Zod.

Context `{ZodLib}.

(** The outcome for one key of the shape. *)
Local Abbreviation field_outcome path props ks :=
  (parse_at (snd ks) (path ++ [fst ks])
     (option.default VUndefined (lookup_prop (fst ks) props))).

Lemma parse_at_object (shape : list (string * Zod.schema)) (path : list string)
    (class : string) (props : list (string * value)) :
  parse_at (ZObject shape) path (VObject class props)
  = if is_object_class class
    then merge_object
           (map (fun ks => (fst ks, has_prop (fst ks) props, field_outcome path props ks))
                shape)
    else invalid "invalid_type" path (VObject class props).
Proof.
  cbn [parse_at]. destruct (is_object_class class); [|reflexivity]. f_equal.
  induction shape as [|[k child] rest IH]; [reflexivity|].
  cbn [map fst snd]. now rewrite IH.
Qed.

(** An object literal is always taken for an object. *)
Lemma object_literal_class : is_object_class "Object" = true.
Proof. reflexivity. Qed.

(** An object is valid exactly when [z.object] takes it for an object and
    each key of the shape is valid. *)
Lemma object_valid (shape : list (string * Zod.schema)) (path : list string)
    (class : string) (props : list (string * value)) :
  outcome_status (parse_at (ZObject shape) path (VObject class props)) = valid <->
  is_object_class class = true /\
  Forall (fun ks => outcome_status (field_outcome path props ks) = valid) shape.
Proof.
  rewrite parse_at_object.
  destruct (is_object_class class);
    [rewrite true_and | split; [discriminate | intros [Hx _]; discriminate Hx]].
  cbn [merge_object outcome_status].
  induction shape as [|ks rest IH]; cbn [map fold_right snd].
  - split; [constructor | reflexivity].
  - rewrite worse_valid, IH. split.
    + intros [Hks Hrest]. now constructor.
    + intros Hall. inversion Hall; subst. now split.
Qed.

(** The parsed object: the keys of the shape, without those whose value is
    [undefined] and which the input does not have. *)
Lemma object_value (shape : list (string * Zod.schema)) (path : list string)
    (class : string) (props : list (string * value)) :
  is_object_class class = true ->
  outcome_value (parse_at (ZObject shape) path (VObject class props))
  = obj (omap (fun ks =>
                 match outcome_value (field_outcome path props ks) with
                 | VUndefined =>
                     if has_prop (fst ks) props then Some (fst ks, VUndefined) else None
                 | v => Some (fst ks, v)
                 end) shape).
Proof.
  intros Hclass. rewrite parse_at_object, Hclass.
  cbn [merge_object outcome_value]. f_equal.
  induction shape as [|ks rest IH]; [reflexivity|].
  cbn [map omap list_omap]. rewrite <- IH.
  destruct (outcome_value (field_outcome path props ks)); reflexivity.
Qed.

Lemma non_object_invalid (shape : list (string * Zod.schema)) (path : list string)
    (input : value) :
  outcome_status (parse_at (ZObject shape) path input) = valid ->
  exists class props, input = VObject class props /\ is_object_class class = true.
Proof.
  destruct input as [| | | | | |class props]; try discriminate.
  intros Hvalid. apply object_valid in Hvalid as [Hclass _]. eauto.
Qed.

End ObjectFacts.

(** ** The shared, signup and password schemas *)

Section SchemaShapes.

Import Zod.

Lemma shared_createUserSchema_eq :
  SharedTypes.createUserSchema
  = ZObject [ ("email", ZString [check_email None]);
              ("name", ZString [check_min 2 None; check_max 50 None]);
              ("password", ZString [check_min 8 None]) ].
Proof. reflexivity. Qed.

Lemma updateUserSchema_eq :
  SharedTypes.updateUserSchema
  = ZObject [ ("name", ZOptional (ZString [check_min 2 None; check_max 50 None])) ].
Proof. reflexivity. Qed.

Lemma loginSchema_eq :
  SharedTypes.loginSchema
  = ZObject [ ("email", ZString [check_email None]);
              ("password", ZString [check_min 8 None]) ].
Proof. reflexivity. Qed.

Lemma existsb_first_line (p : N -> bool) (s : jsstring) :
  existsb p (RegExp.first_line s) = true -> existsb p s = true.
Proof.
  induction s as [|c rest IH]; [discriminate|]. cbn.
  destruct (RegExp.dot c); cbn; [|discriminate].
  destruct (p c); [reflexivity|]. exact IH.
Qed.

End SchemaShapes.

Section SchemaAcceptance.

Import Zod.

Context `{ZodLib}.

Lemma shared_createUserSchema_on_object (class : string) (props : list (string * value)) :
  outcome_status (parse_at SharedTypes.createUserSchema [] (VObject class props)) = valid <->
  is_object_class class = true /\
  (exists e, lookup_prop "email" props = Some (VString e) /\ is_email e = true) /\
  (exists n, lookup_prop "name" props = Some (VString n) /\
             2 <= length n /\ length n <= 50) /\
  (exists p, lookup_prop "password" props = Some (VString p) /\ 8 <= length p).
Proof.
  rewrite shared_createUserSchema_eq, object_valid, !Forall_cons, Forall_nil.
  cbn [fst snd]. rewrite !string_valid.
  cbn [forallb string_check_passes].
  setoid_rewrite field_is_string.
  setoid_rewrite andb_true_iff. setoid_rewrite andb_true_iff.
  setoid_rewrite Nat.leb_le. intuition; firstorder.
Qed.

Lemma loginSchema_on_object (class : string) (props : list (string * value)) :
  outcome_status (parse_at SharedTypes.loginSchema [] (VObject class props)) = valid <->
  is_object_class class = true /\
  (exists e, lookup_prop "email" props = Some (VString e) /\ is_email e = true) /\
  (exists p, lookup_prop "password" props = Some (VString p) /\ 8 <= length p).
Proof.
  rewrite loginSchema_eq, object_valid, !Forall_cons, Forall_nil.
  cbn [fst snd]. rewrite !string_valid.
  cbn [forallb string_check_passes].
  setoid_rewrite field_is_string.
  setoid_rewrite andb_true_iff.
  setoid_rewrite Nat.leb_le. intuition; firstorder.
Qed.

(** X8: whatever the backend DTO schema accepts, the shared
    [createUserSchema] (made with [pick] and [extend]) and [loginSchema]
    accept as well: the backend schema is the strictest of the three. *)
Theorem backend_dto_satisfies_shared_schemas (body : value) :
  Stated.accepts Backend.createUserSchema body ->
  Stated.accepts SharedTypes.createUserSchema body /\
  Stated.accepts SharedTypes.loginSchema body.
Proof.
  rewrite !accepts_iff_valid.
  destruct body as [| | | | | |class props]; try discriminate.
  rewrite createUserSchema_on_object, shared_createUserSchema_on_object,
    loginSchema_on_object.
  intros (Hclass & Hemail & (n & Hn & Hlen) & (p & Hp & Hpw) & _).
  rewrite !andb_true_iff, !Nat.leb_le in Hlen.
  rewrite !andb_true_iff, Nat.leb_le in Hpw.
  repeat split; try exact Hemail; try exact Hclass.
  - exists n. intuition.
  - exists p. intuition.
  - exists p. intuition.
Qed.

(** X9: [updateUserSchema] (a [pick] made [partial]) accepts exactly the
    objects (object literals, and instances of the classes the library
    parses as objects) whose [name] is missing, [undefined], or a string
    of 2 to 50 code units; the empty object literal is accepted. *)
Theorem updateUserSchema_accepts_iff (input : value) :
  (Stated.accepts SharedTypes.updateUserSchema input <->
   exists class props, input = VObject class props /\
     is_object_class class = true /\
     (lookup_prop "name" props = None \/
      lookup_prop "name" props = Some VUndefined \/
      exists n, lookup_prop "name" props = Some (VString n) /\
                2 <= length n /\ length n <= 50)) /\
  Stated.accepts SharedTypes.updateUserSchema (obj []).
Proof.
  assert (Hiff : forall input,
            Stated.accepts SharedTypes.updateUserSchema input <->
            exists class props, input = VObject class props /\
              is_object_class class = true /\
              (lookup_prop "name" props = None \/
               lookup_prop "name" props = Some VUndefined \/
               exists n, lookup_prop "name" props = Some (VString n) /\
                         2 <= length n /\ length n <= 50)).
  { clear input. intros input. rewrite accepts_iff_valid.
    destruct input as [| | | | | |class props];
      try (split; [discriminate | intros (c & ps & Hobj & _); discriminate Hobj]).
    rewrite updateUserSchema_eq, object_valid, !Forall_cons, Forall_nil.
    cbn [fst snd].
    rewrite optional_valid, string_valid, field_is_undefined.
    cbn [forallb string_check_passes].
    setoid_rewrite field_is_string.
    setoid_rewrite andb_true_iff. setoid_rewrite andb_true_iff.
    setoid_rewrite Nat.leb_le.
    split.
    - intros [Hclass [[[Hn|Hn]|(n & Hn & Hlo & Hhi & _)] _]]; exists class, props;
        (split; [reflexivity|]); (split; [exact Hclass|]); eauto 10.
    - intros (c & ps & Hobj & Hclass & Hname). inversion Hobj; subst c ps.
      split; [exact Hclass|]. split; [|reflexivity].
      destruct Hname as [Hn|[Hn|(n & Hn & Hlo & Hhi)]]; eauto 10. }
  split; [apply Hiff|].
  apply Hiff. exists "Object", []. split; [reflexivity|].
  split; [apply object_literal_class | now left].
Qed.

End SchemaAcceptance.

Section SignupAndPassword.

Import Zod.

Context `{ZodLib}.

Lemma signupSchema_eq :
  Mobile.signupSchema
  = ZRefine
      (ZObject [ ("email", ZString [check_email (Some (js "올바른 이메일을 입력하세요."))]);
                 ("password",
                  ZString [check_min 8 (Some (js "비밀번호는 최소 8자 이상이어야 합니다."))]);
                 ("passwordConfirm", ZString []) ])
      (fun data =>
         Mobile.strict_equal (option.default VUndefined (prop "password" data))
                             (option.default VUndefined (prop "passwordConfirm" data)))
      (js "비밀번호가 일치하지 않습니다.") ["passwordConfirm"].
Proof. reflexivity. Qed.

(** X10: [signupSchema] accepts exactly the objects (object literals, and
    instances of the classes the library parses as objects) with an email
    that passes Zod's test, a password of at least 8 code units and a
    [passwordConfirm] that is the same string as the password. *)
Theorem signupSchema_accepts_iff (input : value) :
  Stated.accepts Mobile.signupSchema input <->
  exists class props e p,
    input = VObject class props /\
    is_object_class class = true /\
    lookup_prop "email" props = Some (VString e) /\ is_email e = true /\
    lookup_prop "password" props = Some (VString p) /\ 8 <= length p /\
    lookup_prop "passwordConfirm" props = Some (VString p).
Proof.
  rewrite accepts_iff_valid, signupSchema_eq, refine_valid.
  destruct input as [| | | | | |class props];
    try (split; [intros [Hx _]; discriminate Hx
                | intros (c & ps & e & p & Hobj & _); discriminate Hobj]).
  rewrite object_valid, !Forall_cons, Forall_nil. cbn [fst snd].
  rewrite !string_valid. cbn [forallb string_check_passes].
  setoid_rewrite field_is_string.
  split.
  - intros ((Hclass & (e & He & Hmail) & (p & Hp & Hlen) & (pc & Hpc & _) & _) & Hsame).
    rewrite object_value in Hsame by exact Hclass.
    cbn [omap list_omap fst snd] in Hsame. rewrite !string_value in Hsame.
    rewrite He, Hp, Hpc in Hsame. cbn in Hsame.
    apply bool_decide_eq_true in Hsame. subst pc.
    rewrite andb_true_r in Hmail. rewrite andb_true_r, Nat.leb_le in Hlen.
    exists class, props, e, p. auto 10.
  - intros (c & ps & e & p & Hobj & Hclass & He & Hmail & Hp & Hlen & Hpc).
    inversion Hobj; subst c ps. split.
    + split; [exact Hclass|].
      split; [exists e; now rewrite andb_true_r|].
      split; [exists p; now rewrite andb_true_r, Nat.leb_le|].
      split; [now exists p | exact I].
    + rewrite object_value by exact Hclass.
      cbn [omap list_omap fst snd]. rewrite !string_value.
      rewrite He, Hp, Hpc. cbn. now apply bool_decide_eq_true.
Qed.

Lemma passwordSchema_eq :
  Advanced.passwordSchema
  = ZRefine
      (ZRefine
         (ZRefine (ZString [check_min 8 None])
            (Advanced.on_string (RegExp.test_class RegExp.upper))
            (js "대문자를 최소 1개 포함해야 합니다.") [])
         (Advanced.on_string (RegExp.test_class RegExp.lower))
         (js "소문자를 최소 1개 포함해야 합니다.") [])
      (Advanced.on_string (RegExp.test_class RegExp.digit))
      (js "숫자를 최소 1개 포함해야 합니다.") [].
Proof. reflexivity. Qed.

Lemma passwordSchema_valid_iff (input : value) :
  outcome_status (parse_at Advanced.passwordSchema [] input) = valid <->
  exists p, input = VString p /\ 8 <= length p /\
            existsb RegExp.upper p = true /\
            existsb RegExp.lower p = true /\
            existsb RegExp.digit p = true.
Proof.
  rewrite passwordSchema_eq.
  rewrite !refine_valid, !refine_value, string_value, string_valid.
  cbn [forallb string_check_passes]. unfold Advanced.on_string, RegExp.test_class.
  split.
  - intros ((((p & -> & Hlen) & Hu) & Hl) & Hd).
    rewrite andb_true_r, Nat.leb_le in Hlen. exists p. auto.
  - intros (p & -> & Hlen & Hu & Hl & Hd).
    repeat split; try assumption.
    exists p. split; [reflexivity|]. now rewrite andb_true_r, Nat.leb_le.
Qed.

(** X11: [passwordSchema] accepts exactly the strings of at least 8 code
    units that hold an uppercase letter, a lowercase letter and a digit,
    wherever they stand. *)
Theorem passwordSchema_accepts_iff (input : value) :
  Stated.accepts Advanced.passwordSchema input <->
  exists p, input = VString p /\ 8 <= length p /\
            existsb RegExp.upper p = true /\
            existsb RegExp.lower p = true /\
            existsb RegExp.digit p = true.
Proof. rewrite accepts_iff_valid. apply passwordSchema_valid_iff. Qed.

(** X12: a password the backend DTO schema accepts is also accepted by
    [passwordSchema]. *)
Theorem dto_password_passes_passwordSchema (class : string)
    (props : list (string * value)) (p : jsstring) :
  Stated.accepts Backend.createUserSchema (VObject class props) ->
  lookup_prop "password" props = Some (VString p) ->
  Stated.accepts Advanced.passwordSchema (VString p).
Proof.
  rewrite accepts_iff_valid, createUserSchema_valid_iff.
  intros (_ & c & ps & Hobj & _ & _ & (p0 & Hp0 & Hlen & Hl & Hu & Hd) & _) Hp.
  inversion Hobj; subst c ps. rewrite Hp in Hp0. inversion Hp0; subst p0.
  apply accepts_iff_valid, passwordSchema_valid_iff. exists p.
  repeat split; try assumption; now apply existsb_first_line.
Qed.

End SignupAndPassword.

Section SchemaWitnesses.

Import Zod.

Lemma updateUserSchema_accepts_iff_witness :
  @Stated.accepts Samples.zod_lib SharedTypes.updateUserSchema (obj []) /\
  ~ @Stated.accepts Samples.zod_lib SharedTypes.updateUserSchema Cases.a_date.
Proof.
  split.
  - exact (proj2 (@updateUserSchema_accepts_iff Samples.zod_lib (obj []))).
  - intros Haccepts.
    apply (proj1 (proj1 (@updateUserSchema_accepts_iff Samples.zod_lib Cases.a_date)))
      in Haccepts as (class & props & Hobject & Hclass & _).
    inversion Hobject; subst class props. vm_compute in Hclass. discriminate Hclass.
Defined.

Lemma signupSchema_accepts_iff_witness :
  ~ @Stated.accepts Samples.zod_lib Mobile.signupSchema Cases.date_body.
Proof.
  intros Haccepts.
  apply (proj1 (@signupSchema_accepts_iff Samples.zod_lib Cases.date_body))
    in Haccepts as (class & props & e & p & Hobject & Hclass & _).
  inversion Hobject; subst class props. vm_compute in Hclass. discriminate Hclass.
Defined.

Lemma backend_dto_satisfies_shared_schemas_witness :
  @Stated.accepts Samples.zod_lib SharedTypes.createUserSchema Samples.good_body /\
  @Stated.accepts Samples.zod_lib SharedTypes.loginSchema Samples.good_body.
Proof.
  apply (@backend_dto_satisfies_shared_schemas Samples.zod_lib Samples.good_body).
  eexists. vm_compute. reflexivity.
Defined.

Lemma dto_password_passes_passwordSchema_witness :
  @Stated.accepts Samples.zod_lib Advanced.passwordSchema (lit "Passw0rdPassw0rd").
Proof.
  apply (@dto_password_passes_passwordSchema Samples.zod_lib "Object"
           [ ("email", lit "test@example.com");
             ("name", lit "Test User");
             ("password", lit "Passw0rdPassw0rd") ]
           (js "Passw0rdPassw0rd")).
  - eexists. vm_compute. reflexivity.
  - reflexivity.
Defined.

End SchemaWitnesses.

(** ** Environment validation *)

Section EnvObject.

Lemma lookup_prop_list_to_map (l : list (string * jsstring)) (k : string) :
  lookup_prop k (map (fun kv => (fst kv, VString (snd kv))) l)
  = VString <$> (list_to_map l : gmap string jsstring) !! k.
Proof.
  induction l as [|[k' v] l IH]; cbn [map lookup_prop fst snd list_to_map foldr].
  - now rewrite lookup_empty.
  - destruct (String.eqb_spec k' k) as [->|Hne].
    + now rewrite lookup_insert_eq.
    + now rewrite lookup_insert_ne.
Qed.

(** Reading a property of [process.env] as an object is reading the
    variable. *)
Lemma lookup_env_object (env : gmap string jsstring) (k : string) (class : string)
    (props : list (string * value)) :
  env_object env = VObject class props ->
  lookup_prop k props = VString <$> env !! k.
Proof.
  unfold env_object, obj. intros [= _ <-].
  now rewrite lookup_prop_list_to_map, list_to_map_to_list.
Qed.

(** [process.env] is taken for an object. *)
Lemma env_object_class `{Zod.ZodLib} (env : gmap string jsstring) (class : string)
    (props : list (string * value)) :
  env_object env = VObject class props -> Zod.is_object_class class = true.
Proof. unfold env_object, obj. now intros [= <- _]. Qed.

Lemma env_field (env : gmap string jsstring) (k : string) (class : string)
    (props : list (string * value)) :
  env_object env = VObject class props ->
  option.default VUndefined (lookup_prop k props) = env_get env k.
Proof.
  intros Henv. rewrite (lookup_env_object env k class props Henv).
  unfold env_get. now destruct (env !! k).
Qed.

End EnvObject.

Section EnvSchema.

Import Zod Backend.

Context `{ZodLib} `{JsRuntime}.

Lemma envSchema_eq :
  envSchema
  = ZObject [
      ("NODE_ENV", ZEnum [js "development"; js "production"; js "test"]);
      ("PORT", ZPipe (ZTransform (ZString []) Number)
                     (ZNumber [check_ge (inject_Z 1); check_le (inject_Z 65535)]));
      ("DATABASE_HOST", ZString [check_min 1 None]);
      ("DATABASE_PORT", ZTransform (ZString []) Number);
      ("DATABASE_NAME", ZString [check_min 1 None]);
      ("JWT_SECRET",
       ZString [check_min 32 (Some (js "JWT_SECRET은 최소 32자 이상이어야 합니다."))]);
      ("JWT_EXPIRES_IN", ZDefault (ZString []) (lit "1h")) ].
Proof. reflexivity. Qed.

Lemma env_get_string (env : gmap string jsstring) (k : string) (s : jsstring) :
  env_get env k = VString s <-> env !! k = Some s.
Proof. unfold env_get. destruct (env !! k); split; congruence. Qed.

(** [z.string().transform(Number)] on a variable. *)
Lemma number_of_variable (env : gmap string jsstring) (k : string) (path : list string) :
  parse_at (ZTransform (ZString []) Number) path (env_get env k)
  = match env !! k with
    | Some s => ok (VNumber (StringToNumber s))
    | None => invalid "invalid_type" path VUndefined
    end.
Proof. unfold env_get. destruct (env !! k); reflexivity. Qed.

Lemma string_of_variable (env : gmap string jsstring) (k : string)
    (checks : list string_check) (path : list string) :
  outcome_status (parse_at (ZString checks) path (env_get env k)) = valid <->
  exists s, env !! k = Some s /\
            forallb (fun c => string_check_passes c s) checks = true.
Proof.
  rewrite string_valid. setoid_rewrite env_get_string. reflexivity.
Qed.

Lemma port_of_variable (env : gmap string jsstring) (path : list string) :
  outcome_status
    (parse_at (ZPipe (ZTransform (ZString []) Number)
                 (ZNumber [check_ge (inject_Z 1); check_le (inject_Z 65535)]))
       path (env_get env "PORT")) = valid <->
  exists port, env !! "PORT" = Some port /\
    StringToNumber port <> NaN /\
    number_le (Finite (inject_Z 1)) (StringToNumber port) = true /\
    number_le (StringToNumber port) (Finite (inject_Z 65535)) = true.
Proof.
  rewrite pipe_valid, number_of_variable.
  destruct (env !! "PORT") as [port|].
  - cbn [ok outcome_status outcome_value]. rewrite number_valid.
    cbn [forallb number_check_passes]. split.
    + intros [_ (n & [= <-] & Hnan & Hchecks)].
      rewrite !andb_true_iff in Hchecks. exists port. intuition.
    + intros (p & [= <-] & Hnan & Hlo & Hhi). split; [reflexivity|].
      exists (StringToNumber port). rewrite Hlo, Hhi. auto.
  - split; [intros [Hx _]; discriminate Hx | intros (p & Hp & _); discriminate Hp].
Qed.

Lemma default_of_variable (env : gmap string jsstring) (k : string) (d : jsstring)
    (path : list string) :
  parse_at (ZDefault (ZString []) (VString d)) path (env_get env k)
  = ok (VString (option.default d (env !! k))).
Proof. unfold env_get. destruct (env !! k); reflexivity. Qed.

(** The environments [envSchema] finds valid. *)
Lemma envSchema_valid_iff (env : gmap string jsstring) :
  outcome_status (parse_at envSchema [] (env_object env)) = valid <->
  (exists node, env !! "NODE_ENV" = Some node /\
                node ∈ [js "development"; js "production"; js "test"]) /\
  (exists port, env !! "PORT" = Some port /\
     StringToNumber port <> NaN /\
     number_le (Finite (inject_Z 1)) (StringToNumber port) = true /\
     number_le (StringToNumber port) (Finite (inject_Z 65535)) = true) /\
  (exists host, env !! "DATABASE_HOST" = Some host /\ 1 <= length host) /\
  (exists port, env !! "DATABASE_PORT" = Some port) /\
  (exists name, env !! "DATABASE_NAME" = Some name /\ 1 <= length name) /\
  (exists secret, env !! "JWT_SECRET" = Some secret /\ 32 <= length secret).
Proof.
  destruct (env_object env) as [| | | | | |class props] eqn:Henv;
    try discriminate Henv.
  rewrite envSchema_eq, object_valid, !Forall_cons, Forall_nil. cbn [fst snd].
  rewrite (env_object_class env class props Henv), true_and.
  rewrite !(env_field env _ class props Henv).
  rewrite enum_valid, port_of_variable, !string_of_variable.
  change (lit "1h") with (VString (js "1h")).
  rewrite number_of_variable, default_of_variable.
  cbn [forallb string_check_passes].
  setoid_rewrite env_get_string.
  setoid_rewrite andb_true_r. setoid_rewrite Nat.leb_le.
  repeat apply and_iff_compat_l.
  destruct (env !! "DATABASE_PORT") as [dbport|]; cbn.
  - intuition eauto.
  - split; [intros [Hx _]; discriminate Hx|].
    intros [(p & Hp) _]. discriminate Hp.
Qed.

End EnvSchema.

Section ValidateEnv.

Import Zod Backend.

Context `{ZodLib} `{JsRuntime}.

Lemma port_value (env : gmap string jsstring) (checks : list number_check)
    (path : list string) (port : jsstring) :
  env !! "PORT" = Some port ->
  outcome_value
    (parse_at (ZPipe (ZTransform (ZString []) Number) (ZNumber checks))
       path (env_get env "PORT"))
  = VNumber (StringToNumber port).
Proof.
  intros Hport. rewrite pipe_value; rewrite number_of_variable, Hport.
  - cbn [ok outcome_value]. apply number_value.
  - reflexivity.
Qed.

(** What [envSchema] makes of a valid environment. *)
Lemma envSchema_value (env : gmap string jsstring)
    (node port host dbport name secret : jsstring) :
  env !! "NODE_ENV" = Some node ->
  env !! "PORT" = Some port ->
  env !! "DATABASE_HOST" = Some host ->
  env !! "DATABASE_PORT" = Some dbport ->
  env !! "DATABASE_NAME" = Some name ->
  env !! "JWT_SECRET" = Some secret ->
  outcome_value (parse_at envSchema [] (env_object env))
  = obj [ ("NODE_ENV", VString node);
          ("PORT", VNumber (StringToNumber port));
          ("DATABASE_HOST", VString host);
          ("DATABASE_PORT", VNumber (StringToNumber dbport));
          ("DATABASE_NAME", VString name);
          ("JWT_SECRET", VString secret);
          ("JWT_EXPIRES_IN",
           VString (option.default (js "1h") (env !! "JWT_EXPIRES_IN"))) ].
Proof.
  intros Hnode Hport Hhost Hdbport Hname Hsecret.
  destruct (env_object env) as [| | | | | |class props] eqn:Henv;
    try discriminate Henv.
  rewrite envSchema_eq, object_value by exact (env_object_class env class props Henv).
  cbn [omap list_omap fst snd].
  rewrite !(env_field env _ class props Henv).
  change (lit "1h") with (VString (js "1h")).
  rewrite enum_value, !string_value, (port_value env _ _ port Hport).
  rewrite number_of_variable, default_of_variable, Hdbport.
  rewrite (proj2 (env_get_string env "NODE_ENV" node) Hnode).
  rewrite (proj2 (env_get_string env "DATABASE_HOST" host) Hhost).
  rewrite (proj2 (env_get_string env "DATABASE_NAME" name) Hname).
  rewrite (proj2 (env_get_string env "JWT_SECRET" secret) Hsecret).
  reflexivity.
Qed.

Lemma validateEnv_Normal (env : gmap string jsstring) (out : value) :
  snd (validateEnv env) = Normal out <->
  parse envSchema (env_object env) = Normal out.
Proof.
  unfold validateEnv.
  destruct (parse envSchema (env_object env)) as [data|error] eqn:Hp; cbn [snd].
  - reflexivity.
  - destruct (parse_throws_ZodError_only envSchema _ _ Hp) as [issues ->].
    rewrite get_errors_of_ZodError. cbn [snd]. split; discriminate.
Qed.

(** X13: [validateEnv] returns exactly for the environments in which
    [NODE_ENV] is development, production or test, [Number(PORT)] is a
    number from 1 to 65535, [DATABASE_HOST] and [DATABASE_NAME] are not
    empty, [DATABASE_PORT] is set (to any string) and [JWT_SECRET] has at
    least 32 code units; [JWT_EXPIRES_IN] may be missing. *)
Theorem validateEnv_returns_iff (env : gmap string jsstring) :
  (exists out, snd (validateEnv env) = Normal out) <->
  (exists node, env !! "NODE_ENV" = Some node /\
                node ∈ [js "development"; js "production"; js "test"]) /\
  (exists port, env !! "PORT" = Some port /\
     StringToNumber port <> NaN /\
     number_le (Finite (inject_Z 1)) (StringToNumber port) = true /\
     number_le (StringToNumber port) (Finite (inject_Z 65535)) = true) /\
  (exists host, env !! "DATABASE_HOST" = Some host /\ 1 <= length host) /\
  (exists port, env !! "DATABASE_PORT" = Some port) /\
  (exists name, env !! "DATABASE_NAME" = Some name /\ 1 <= length name) /\
  (exists secret, env !! "JWT_SECRET" = Some secret /\ 32 <= length secret).
Proof.
  rewrite <- envSchema_valid_iff. setoid_rewrite validateEnv_Normal.
  setoid_rewrite parse_Normal. split.
  - intros (out & Hvalid & _). exact Hvalid.
  - intros Hvalid. eauto.
Qed.

(** X14: what [validateEnv] returns has the seven keys of the schema and
    no other variable of the environment: the strings as they are,
    [PORT] and [DATABASE_PORT] as [Number] of their strings (for
    [DATABASE_PORT] whatever that is, NaN included), and [JWT_EXPIRES_IN]
    as '1h' when the variable is not set; nothing is written to the
    console. *)
Theorem validateEnv_result (env : gmap string jsstring) (out : value) :
  snd (validateEnv env) = Normal out ->
  fst (validateEnv env) = [] /\
  exists node port host dbport name secret,
    env !! "NODE_ENV" = Some node /\
    env !! "PORT" = Some port /\
    env !! "DATABASE_HOST" = Some host /\
    env !! "DATABASE_PORT" = Some dbport /\
    env !! "DATABASE_NAME" = Some name /\
    env !! "JWT_SECRET" = Some secret /\
    out = obj [ ("NODE_ENV", VString node);
                ("PORT", VNumber (StringToNumber port));
                ("DATABASE_HOST", VString host);
                ("DATABASE_PORT", VNumber (StringToNumber dbport));
                ("DATABASE_NAME", VString name);
                ("JWT_SECRET", VString secret);
                ("JWT_EXPIRES_IN",
                 VString (option.default (js "1h") (env !! "JWT_EXPIRES_IN"))) ].
Proof.
  intros Hout. split.
  - apply validateEnv_Normal in Hout. unfold validateEnv. now rewrite Hout.
  - apply validateEnv_Normal, parse_Normal in Hout as [Hvalid ->].
    apply envSchema_valid_iff in Hvalid
      as ((node & Hnode & _) & (port & Hport & _) & (host & Hhost & _) &
          (dbport & Hdbport) & (name & Hname & _) & (secret & Hsecret & _)).
    exists node, port, host, dbport, name, secret.
    repeat (split; [assumption|]).
    now apply envSchema_value.
Qed.

(** X15: for every other environment [envSchema.parse] throws a
    [ZodError] with at least one issue, and [validateEnv] writes one line
    to the console and throws [Error('Environment validation failed')].
    The line is the message followed by [error.errors]: the issues when
    the library's [ZodError] has the [errors] alias, [undefined] when it
    has [issues] only. *)
Theorem validateEnv_failure (env : gmap string jsstring) :
  (forall out, snd (validateEnv env) <> Normal out) ->
  exists first rest,
    parse envSchema (env_object env) = Throw (ZodError (VArray (first :: rest))) /\
    validateEnv env
    = ([ [lit "❌ Invalid environment variables:";
          if errors_alias then VArray (first :: rest) else VUndefined] ],
       Throw (new_Error (js "Environment validation failed"))).
Proof.
  intros Hfail.
  assert (Hinvalid : outcome_status (parse_at envSchema [] (env_object env)) <> valid).
  { intros Hvalid. eapply Hfail. apply validateEnv_Normal, parse_Normal. eauto. }
  destruct (parse_Throw envSchema (env_object env) Hinvalid) as (first & rest & Hthrow).
  exists first, rest. split; [exact Hthrow|]. unfold validateEnv. rewrite Hthrow.
  now rewrite get_errors_of_ZodError.
Qed.

End ValidateEnv.

Section ValidateEnvWitnesses.

Import Zod Backend.

Lemma backend_env_returns :
  snd (@validateEnv Samples.zod_lib Samples.js_runtime Cases.backend_env)
  = Normal (obj [ ("NODE_ENV", lit "development");
                  ("PORT", num 3000);
                  ("DATABASE_HOST", lit "localhost");
                  ("DATABASE_PORT", num 5432);
                  ("DATABASE_NAME", lit "moim_dev");
                  ("JWT_SECRET", lit "0123456789abcdef0123456789abcdef");
                  ("JWT_EXPIRES_IN", lit "1h") ]).
Proof. vm_compute. reflexivity. Qed.

Lemma validateEnv_result_witness :
  fst (@validateEnv Samples.zod_lib Samples.js_runtime Cases.backend_env) = [].
Proof.
  exact (proj1 (@validateEnv_result Samples.zod_lib Samples.js_runtime
                  Cases.backend_env _ backend_env_returns)).
Defined.

Lemma validateEnv_failure_witness :
  (exists first rest,
     @parse Samples.zod_lib (@envSchema Samples.js_runtime) (env_object Cases.guide_env)
     = Throw (@ZodError Samples.zod_lib (VArray (first :: rest))) /\
     @validateEnv Samples.zod_lib Samples.js_runtime Cases.guide_env
     = ([ [lit "❌ Invalid environment variables:"; VArray (first :: rest)] ],
        Throw (new_Error (js "Environment validation failed")))) /\
  (exists first rest,
     @parse Cases.zod_lib_issues_only (@envSchema Samples.js_runtime)
       (env_object Cases.guide_env)
     = Throw (@ZodError Cases.zod_lib_issues_only (VArray (first :: rest))) /\
     @validateEnv Cases.zod_lib_issues_only Samples.js_runtime Cases.guide_env
     = ([ [lit "❌ Invalid environment variables:"; VUndefined] ],
        Throw (new_Error (js "Environment validation failed")))).
Proof.
  split.
  - apply (@validateEnv_failure Samples.zod_lib Samples.js_runtime Cases.guide_env).
    intros out Hout. vm_compute in Hout. discriminate Hout.
  - apply (@validateEnv_failure Cases.zod_lib_issues_only Samples.js_runtime
             Cases.guide_env).
    intros out Hout. vm_compute in Hout. discriminate Hout.
Defined.

End ValidateEnvWitnesses.

(** ** The user API of the mobile client *)

Section UserApiFacts.

Import Zod Mobile.

Context `{ZodLib} `{ApiClient}.

Lemma boolean_valid (path : list string) (v : value) :
  outcome_status (parse_at ZBoolean path v) = valid <-> exists b, v = VBool b.
Proof.
  destruct v; cbn; split; try discriminate; eauto;
    intros [b0 Hb]; discriminate Hb.
Qed.

Lemma boolean_value (path : list string) (v : value) :
  outcome_value (parse_at ZBoolean path v) = v.
Proof. destruct v; reflexivity. Qed.

Lemma userSchema_eq :
  Mobile.userSchema
  = ZObject [ ("id", ZString []);
              ("email", ZString [check_email None]);
              ("name", ZString []);
              ("createdAt", ZString [check_datetime]) ].
Proof. reflexivity. Qed.

(** A valid user comes out with its four fields and no other. *)
Lemma userSchema_valid_value (path : list string) (v : value) :
  outcome_status (parse_at userSchema path v) = valid ->
  exists i e n c,
    outcome_value (parse_at userSchema path v)
    = obj [ ("id", VString i); ("email", VString e);
            ("name", VString n); ("createdAt", VString c) ] /\
    prop "id" v = Some (VString i) /\ prop "email" v = Some (VString e) /\
    prop "name" v = Some (VString n) /\ prop "createdAt" v = Some (VString c) /\
    is_email e = true /\ is_datetime c = true.
Proof.
  rewrite userSchema_eq. intros Hvalid.
  destruct (non_object_invalid _ _ _ Hvalid) as (class & props & -> & Hclass).
  rewrite object_valid, !Forall_cons, Forall_nil in Hvalid. cbn [fst snd] in Hvalid.
  rewrite !string_valid in Hvalid. cbn [forallb string_check_passes] in Hvalid.
  destruct Hvalid as (_ & (i & Hi & _) & (e & He & Hmail) & (n & Hn & _) &
                      (c & Hc & Hdate) & _).
  rewrite andb_true_r in Hmail, Hdate.
  exists i, e, n, c.
  rewrite object_value by exact Hclass.
  cbn [omap list_omap fst snd]. rewrite !string_value.
  rewrite Hi, He, Hn, Hc. cbn [prop].
  apply field_is_string in Hi, He, Hn, Hc. auto 10.
Qed.

Lemma getUserResponseSchema_eq :
  getUserResponseSchema
  = ZObject [ ("success", ZBoolean); ("data", userSchema) ].
Proof. reflexivity. Qed.

Lemma getUserResponseSchema_valid_value (data : value) :
  outcome_status (parse_at getUserResponseSchema [] data) = valid ->
  exists b i e n c,
    outcome_value (parse_at getUserResponseSchema [] data)
    = obj [ ("success", VBool b);
            ("data", obj [ ("id", VString i); ("email", VString e);
                           ("name", VString n); ("createdAt", VString c) ]) ] /\
    is_email e = true /\ is_datetime c = true.
Proof.
  rewrite getUserResponseSchema_eq. intros Hvalid.
  destruct (non_object_invalid _ _ _ Hvalid) as (class & props & -> & Hclass).
  rewrite object_valid, !Forall_cons, Forall_nil in Hvalid. cbn [fst snd] in Hvalid.
  destruct Hvalid as (_ & Hsuccess & Huser & _).
  apply boolean_valid in Hsuccess as [b Hb].
  apply userSchema_valid_value in Huser
    as (i & e & n & c & Hvalue & _ & _ & _ & _ & Hmail & Hdate).
  exists b, i, e, n, c. split; [|now split].
  rewrite object_value by exact Hclass. cbn [omap list_omap fst snd].
  rewrite boolean_value, Hb, Hvalue. reflexivity.
Qed.

(** X16: [getUser] returns a value exactly when [getUserSafe] returns it,
    and then [getUserSafe] writes nothing to the console. *)
Theorem getUserSafe_returns_as_getUser (id : jsstring) (data : value) :
  getUser id = Normal data <-> getUserSafe id = ([], Normal data).
Proof.
  unfold getUser, getUserSafe, getUserSafe_try.
  destruct (axios_get (API_URL ++ js "/users/" ++ id)) as [response|e]; cbn;
    [|split; discriminate].
  destruct (get response "data") as [body|e]; cbn; [|split; discriminate].
  unfold parse. destruct (safeParse getUserResponseSchema body); cbn.
  - split; now intros [= ->].
  - split; discriminate.
Qed.

(** X17: when [getUserSafe] throws, either it rethrows what [getUser]
    throws (the network call or the read of its response failed) after
    one console line, or the response did not pass the schema: then
    [getUser] throws the [ZodError], while [getUserSafe] writes two
    console lines, the first with the [ZodError], and throws
    [Error('잘못된 API 응답 형식')] instead. *)
Theorem getUserSafe_throws (id : jsstring) (e : value) :
  snd (getUserSafe id) = Throw e ->
  (getUser id = Throw e /\
   getUserSafe id = ([ [lit "API 호출 실패:"; e] ], Throw e)) \/
  (exists first rest,
     getUser id = Throw (ZodError (VArray (first :: rest))) /\
     e = new_Error (js "잘못된 API 응답 형식") /\
     getUserSafe id
     = ([ [lit "API 응답 검증 실패:"; ZodError (VArray (first :: rest))];
          [lit "API 호출 실패:"; e] ], Throw e)).
Proof.
  unfold getUser, getUserSafe, getUserSafe_try.
  destruct (axios_get (API_URL ++ js "/users/" ++ id)) as [response|e0]; cbn;
    [|intros [= ->]; now left].
  destruct (get response "data") as [body|e0]; cbn; [|intros [= ->]; now left].
  destruct (outcome_status (parse_at getUserResponseSchema [] body)) eqn:Hst.
  - assert (Hp : parse getUserResponseSchema body
                 = Normal (outcome_value (parse_at getUserResponseSchema [] body)))
      by now apply parse_Normal.
    unfold parse in Hp.
    destruct (safeParse getUserResponseSchema body); [discriminate | discriminate Hp].
  - destruct (parse_Throw getUserResponseSchema body) as (first & rest & Hthrow);
      [congruence|].
    unfold parse in *.
    destruct (safeParse getUserResponseSchema body) as [d|err]; [discriminate Hthrow|].
    inversion Hthrow; subst err. cbn. intros [= <-]. right. now exists first, rest.
  - destruct (parse_Throw getUserResponseSchema body) as (first & rest & Hthrow);
      [congruence|].
    unfold parse in *.
    destruct (safeParse getUserResponseSchema body) as [d|err]; [discriminate Hthrow|].
    inversion Hthrow; subst err. cbn. intros [= <-]. right. now exists first, rest.
Qed.

(** X18: what [getUser] returns is [{ success, data: { id, email, name,
    createdAt } }] with a boolean, four strings, an email and a datetime
    that pass Zod's tests, and nothing else: further fields of the
    response do not reach the caller. *)
Theorem getUser_result (id : jsstring) (data : value) :
  getUser id = Normal data ->
  exists b i e n c,
    data = obj [ ("success", VBool b);
                 ("data", obj [ ("id", VString i); ("email", VString e);
                                ("name", VString n); ("createdAt", VString c) ]) ] /\
    is_email e = true /\ is_datetime c = true.
Proof.
  unfold getUser.
  destruct (axios_get (API_URL ++ js "/users/" ++ id)) as [response|e]; cbn;
    [|discriminate].
  destruct (get response "data") as [body|e]; cbn; [|discriminate].
  destruct (parse getUserResponseSchema body) as [d|e] eqn:Hp; cbn; [|discriminate].
  intros [= <-]. apply parse_Normal in Hp as [Hvalid ->].
  now apply getUserResponseSchema_valid_value.
Qed.

End UserApiFacts.

Section UserApiWitnesses.

Import Zod Mobile.

Lemma getUserSafe_throws_witness :
  (@getUser Samples.zod_lib Samples.offline_client (js "42") = Throw Samples.network_error /\
   @getUserSafe Samples.zod_lib Samples.offline_client (js "42")
   = ([ [lit "API 호출 실패:"; Samples.network_error] ], Throw Samples.network_error)) \/
  (exists first rest,
     @getUser Samples.zod_lib Samples.offline_client (js "42")
     = Throw (@ZodError Samples.zod_lib (VArray (first :: rest))) /\
     Samples.network_error = new_Error (js "잘못된 API 응답 형식") /\
     @getUserSafe Samples.zod_lib Samples.offline_client (js "42")
     = ([ [lit "API 응답 검증 실패:"; @ZodError Samples.zod_lib (VArray (first :: rest))];
          [lit "API 호출 실패:"; Samples.network_error] ], Throw Samples.network_error)).
Proof.
  apply (@getUserSafe_throws Samples.zod_lib Samples.offline_client (js "42")
           Samples.network_error).
  reflexivity.
Defined.

Lemma getUser_result_witness :
  exists b i e n c,
    obj [ ("success", VBool true);
          ("data", obj [ ("id", lit "42"); ("email", lit "test@example.com");
                         ("name", lit "Test User");
                         ("createdAt", lit "2025-01-01T00:00:00Z") ]) ]
    = obj [ ("success", VBool b);
            ("data", obj [ ("id", VString i); ("email", VString e);
                           ("name", VString n); ("createdAt", VString c) ]) ] /\
    @is_email Samples.zod_lib e = true /\ @is_datetime Samples.zod_lib c = true.
Proof.
  apply (@getUser_result Samples.zod_lib Cases.user_server (js "42")).
  vm_compute. reflexivity.
Defined.

End UserApiWitnesses.

(** ** The login call *)

Section LoginFacts.

Import Zod Auth.

Context `{ZodLib}.

Lemma credentials_valid (email password : jsstring) :
  outcome_status
    (parse_at SharedTypes.loginSchema []
       (obj [("email", VString email); ("password", VString password)])) = valid <->
  is_email email = true /\ 8 <= length password.
Proof.
  unfold obj. rewrite loginSchema_on_object, object_literal_class, true_and.
  cbn [lookup_prop String.eqb Ascii.eqb Bool.eqb].
  split.
  - intros ((e & [= <-] & Hmail) & (p & [= <-] & Hlen)). now split.
  - intros [Hmail Hlen]. split; eauto.
Qed.

Lemma credentials_value (email password : jsstring) :
  outcome_value
    (parse_at SharedTypes.loginSchema []
       (obj [("email", VString email); ("password", VString password)]))
  = obj [("email", VString email); ("password", VString password)].
Proof.
  unfold obj at 1. rewrite loginSchema_eq, object_value by apply object_literal_class.
  cbn [omap list_omap fst snd]. rewrite !string_value. reflexivity.
Qed.

Lemma loginResponseSchema_eq :
  SharedTypes.loginResponseSchema
  = ZObject [ ("accessToken", ZString []);
              ("refreshToken", ZString []);
              ("user", ZObject [ ("id", ZString []);
                                 ("email", ZString []);
                                 ("name", ZString []) ]) ].
Proof. reflexivity. Qed.

Lemma loginResponseSchema_valid_value (data : value) :
  outcome_status (parse_at SharedTypes.loginResponseSchema [] data) = valid ->
  exists a r i e n,
    outcome_value (parse_at SharedTypes.loginResponseSchema [] data)
    = obj [ ("accessToken", VString a);
            ("refreshToken", VString r);
            ("user", obj [ ("id", VString i); ("email", VString e);
                           ("name", VString n) ]) ].
Proof.
  rewrite loginResponseSchema_eq. intros Hvalid.
  destruct (non_object_invalid _ _ _ Hvalid) as (class & props & -> & Hclass).
  rewrite object_valid, !Forall_cons, Forall_nil in Hvalid. cbn [fst snd] in Hvalid.
  destruct Hvalid as (_ & Ha & Hr & Huser & _).
  apply string_valid in Ha as (a & Ha & _), Hr as (r & Hr & _).
  destruct (non_object_invalid _ _ _ Huser) as (uclass & uprops & Hu & Huclass).
  rewrite Hu in Huser.
  rewrite object_valid, !Forall_cons, Forall_nil in Huser. cbn [fst snd] in Huser.
  destruct Huser as (_ & Hi & He & Hn & _).
  apply string_valid in Hi as (i & Hi & _), He as (e & He & _), Hn as (n & Hn & _).
  exists a, r, i, e, n.
  rewrite object_value by exact Hclass. cbn [omap list_omap fst snd].
  rewrite !string_value, Ha, Hr, Hu, object_value by exact Huclass.
  cbn [omap list_omap fst snd]. rewrite !string_value, Hi, He, Hn. reflexivity.
Qed.

(** X19: with an email that fails Zod's test or a password shorter than 8
    code units, [login] throws a [ZodError] with at least one issue, the
    same whatever [axios.post] would do: no request is made. *)
Theorem login_refuses_before_request (email password : jsstring) :
  is_email email = false \/ length password < 8 ->
  exists first rest,
    forall client : HttpPost,
      login email password = Throw (ZodError (VArray (first :: rest))).
Proof.
  intros Hbad.
  destruct (parse_Throw SharedTypes.loginSchema
              (obj [("email", VString email); ("password", VString password)]))
    as (first & rest & Hthrow).
  { rewrite credentials_valid. intros [Hmail Hlen].
    destruct Hbad as [Hbad|Hbad]; [congruence | lia]. }
  exists first, rest. intros client. unfold login. now rewrite Hthrow.
Qed.

(** X20: when [login] returns, the email passed Zod's test and the
    password has at least 8 code units, one POST to '/auth/login' carried
    exactly [{ email, password }], and the result is [{ accessToken,
    refreshToken, user: { id, email, name } }] with strings only: further
    fields of the response are dropped. *)
Theorem login_result `{HttpPost} (email password : jsstring) (out : value) :
  login email password = Normal out ->
  is_email email = true /\ 8 <= length password /\
  (exists response,
     axios_post (js "/auth/login")
       (obj [("email", VString email); ("password", VString password)])
     = Normal response) /\
  exists a r i e n,
    out = obj [ ("accessToken", VString a);
                ("refreshToken", VString r);
                ("user", obj [ ("id", VString i); ("email", VString e);
                               ("name", VString n) ]) ].
Proof.
  unfold login.
  destruct (parse SharedTypes.loginSchema _) as [input|e] eqn:Hin; cbn; [|discriminate].
  apply parse_Normal in Hin as [Hvalid ->].
  apply credentials_valid in Hvalid as [Hmail Hlen].
  rewrite credentials_value.
  destruct (axios_post _ _) as [response|e] eqn:Hpost; cbn; [|discriminate].
  destruct (get response "data") as [data|e]; cbn; [|discriminate].
  intros Hout. apply parse_Normal in Hout as [Hvalid ->].
  repeat split; try assumption; [now exists response|].
  now apply loginResponseSchema_valid_value.
Qed.

End LoginFacts.

Section LoginWitnesses.

Import Zod Auth.

Lemma login_refuses_before_request_witness :
  exists first rest,
    forall client : HttpPost,
      @login Samples.zod_lib client (js "test@example.com") (js "short")
      = Throw (@ZodError Samples.zod_lib (VArray (first :: rest))).
Proof.
  apply (@login_refuses_before_request Samples.zod_lib
           (js "test@example.com") (js "short")).
  right. cbn. lia.
Defined.

Lemma login_result_witness :
  @is_email Samples.zod_lib (js "test@example.com") = true /\
  8 <= length (js "Passw0rdPassw0rd") /\
  (exists response,
     @axios_post Cases.auth_server (js "/auth/login")
       (obj [ ("email", lit "test@example.com");
              ("password", lit "Passw0rdPassw0rd") ])
     = Normal response) /\
  exists a r i e n,
    obj [ ("accessToken", lit "a");
          ("refreshToken", lit "r");
          ("user", obj [ ("id", lit "42"); ("email", lit "test@example.com");
                         ("name", lit "Test User") ]) ]
    = obj [ ("accessToken", VString a);
            ("refreshToken", VString r);
            ("user", obj [ ("id", VString i); ("email", VString e);
                           ("name", VString n) ]) ].
Proof.
  apply (@login_result Samples.zod_lib Cases.auth_server
           (js "test@example.com") (js "Passw0rdPassw0rd")).
  vm_compute. reflexivity.
Defined.

End LoginWitnesses.

(** ** More on the configuration modules *)

Section MoreConfigs.

Import Metro Eslint Tooling.

Local Open Scope N_scope.

(** Once an absolute path is met, nothing to its left is read. *)
Lemma resolve_join_absolute (d : jsstring) (right left1 left2 : list jsstring)
    (acc : jsstring) :
  is_absolute d = true ->
  resolve_join (right ++ d :: left1) acc = resolve_join (right ++ d :: left2) acc.
Proof.
  intros Habs. revert acc. induction right as [|p right IH]; intros acc.
  - cbn [app resolve_join]. destruct d as [|c d]; [discriminate Habs|].
    now rewrite Habs.
  - cbn [app resolve_join]. destruct p as [|c p]; [apply IH|].
    destruct (is_absolute (c :: p)); [reflexivity | apply IH].
Qed.

(** With an absolute first argument, [path.resolve] does not look at the
    working directory. *)
Lemma resolve_absolute (wd1 wd2 d : jsstring) (more : list jsstring) :
  is_absolute d = true ->
  resolve wd1 (d :: more) = resolve wd2 (d :: more).
Proof.
  intros Habs. unfold resolve. cbn [rev]. rewrite <- !app_assoc. cbn [app].
  now rewrite (resolve_join_absolute d (rev more) [wd1] [wd2]).
Qed.

Lemma resolve_is_absolute (wd : jsstring) (paths : list jsstring) :
  is_absolute (resolve wd paths) = true.
Proof. reflexivity. Qed.

(** X21: with an absolute [__dirname], as Node gives it, the object the
    Metro file builds is the same for every working directory and every
    environment; the module's export is then the same whenever
    [getDefaultConfig], which reads the host on its own, returns the same
    defaults. *)
Theorem metro_config_of_dirname_only `{MetroConfigPkg} (h1 h2 : host) :
  __dirname h1 = __dirname h2 ->
  is_absolute (__dirname h1) = true ->
  Metro.config h1 = Metro.config h2 /\
  (getDefaultConfig h1 (__dirname h1) = getDefaultConfig h2 (__dirname h2) ->
   Metro.module_exports h1 = Metro.module_exports h2).
Proof.
  intros Hdir Habs.
  assert (Hroot : monorepoRoot h1 = monorepoRoot h2).
  { unfold monorepoRoot. rewrite <- Hdir. now apply resolve_absolute. }
  assert (Hconfig : Metro.config h1 = Metro.config h2).
  { unfold Metro.config. rewrite <- Hroot, <- Hdir.
    rewrite (resolve_absolute (cwd h1) (cwd h2) (__dirname h1)) by exact Habs.
    rewrite (resolve_absolute (cwd h1) (cwd h2) (monorepoRoot h1))
      by apply resolve_is_absolute.
    reflexivity. }
  split; [exact Hconfig|]. intros Hdefaults.
  unfold Metro.module_exports. now rewrite Hconfig, Hdefaults.
Qed.

Lemma metro_config_of_dirname_only_witness :
  Metro.config Samples.dev_host = Metro.config Cases.other_cwd_host /\
  @Metro.module_exports Samples.metro_pkg Samples.dev_host
  = @Metro.module_exports Samples.metro_pkg Cases.other_cwd_host.
Proof.
  destruct (@metro_config_of_dirname_only Samples.metro_pkg
              Samples.dev_host Cases.other_cwd_host eq_refl eq_refl)
    as [Hconfig Hexport].
  split; [exact Hconfig | apply Hexport; reflexivity].
Defined.

Lemma get_path_snoc (v : value) (ks : list string) (k : string) :
  get_path v (ks ++ [k]) = v' ← get_path v ks; get v' k.
Proof.
  revert v. induction ks as [|k0 ks IH]; intros v; cbn [app get_path].
  - cbn. now destruct (get v k).
  - destruct (get v k0) as [v0|e]; cbn; [apply IH | reflexivity].
Qed.

(** X22: when eslint-plugin-react-hooks has no [configs.flat] (it reads as
    [undefined]), loading the ESLint configuration throws a TypeError and
    [defineConfig] is not called. *)
Theorem eslint_config_needs_flat_configs `{EslintPkgs} :
  get_path reactHooks ["configs"; "flat"] = Normal VUndefined ->
  Eslint.default_export = Throw TypeError.
Proof.
  intros Hflat. unfold Eslint.default_export, config_array.
  change ["configs"; "flat"; "recommended"] with (["configs"; "flat"] ++ ["recommended"]).
  rewrite !get_path_snoc, Hflat. reflexivity.
Qed.

Lemma eslint_config_needs_flat_configs_witness :
  @Eslint.default_export Cases.legacy_eslint_pkgs = Throw TypeError.
Proof.
  apply (@eslint_config_needs_flat_configs Cases.legacy_eslint_pkgs).
  reflexivity.
Defined.

End MoreConfigs.

Section NodeModulesPaths.

Import Metro.

Local Open Scope N_scope.







End NodeModulesPaths.
